(** * Guardio dashboard: the client handlers and the metrics core

    A shallow embedding of the TypeScript sources of the dashboard
    ([pages/ActiveCheckins.tsx], [pages/Machines.tsx],
    [pages/Dashboard.tsx], [hooks/useApi.ts]) together with a model of
    the aggregation core, which the repository keeps in its Python
    backend.

    Conventions of the embedding.
    - A JavaScript [number] that holds a database key or a count is a
      [Z]; a [number] that holds a measurement (minutes, a rate) is an
      exact rational [Q].  Binary floating point is not modelled.
    - [T | null] is [option T]; a string-literal union is an inductive
      type with its wire rendering next to it.
    - An [async] handler is a function from the world before the call
      to a completion and the world after it.  The world is the
      component state plus the log of requests handed to [fetchApi];
      a completion is either a normal value or a thrown value.  One
      run of a handler is modelled; other events interleaving at an
      [await] are not.
    - [fetchApi] lives in [lib/utils], outside the sources at hand: it
      is a parameter of every handler that calls it. *)

From Stdlib Require Import ZArith QArith Qround Qabs Lia Lqa Ascii.
From stdpp Require Import base list strings gmap pretty.

Set Default Proof Using "Type".

(* ================================================================== *)
(** * JavaScript prelude *)
(* ================================================================== *)

Module Js.

(** What a [throw] can carry: an instance of [Error] with its
    [message], or any other value. *)
Inductive Thrown : Type :=
  | ErrorObject (message : string)
  | NonError.

(** [err instanceof Error ? err.message : fallback] *)
Definition message_or (fallback : string) (err : Thrown) : string :=
  match err with
  | ErrorObject message => message
  | NonError => fallback
  end.

Inductive Completion (A : Type) : Type :=
  | Normal (a : A)
  | Abrupt (err : Thrown).
Arguments Normal {A} a.
Arguments Abrupt {A} err.

(** The two arguments of [fetchApi(url, options)]. *)
Record Request : Type := mkRequest {
  url : string;
  method : option string;
  body : option string
}.

Definition get (u : string) : Request :=
  {| url := u; method := None; body := None |}.

Section Handler.
Context {St : Type}.

Record World : Type := mkWorld {
  ui : St;
  sent : list Request
}.

Definition Async (A : Type) : Type := World -> Completion A * World.

Definition ret {A} (a : A) : Async A := fun w => (Normal a, w).

Definition bind {A B} (m : Async A) (k : A -> Async B) : Async B :=
  fun w =>
    match m w with
    | (Normal a, w') => k a w'
    | (Abrupt e, w') => (Abrupt e, w')
    end.

(** A state setter called with an updater function. *)
Definition update (f : St -> St) : Async unit :=
  fun w => (Normal tt, {| ui := f (ui w); sent := sent w |}).

(** [await fetchApi(...)]: the request is logged, the promise
    settles as the network decides. *)
Definition await_fetch {A} (fetchApi : Request -> Completion A)
    (r : Request) : Async A :=
  fun w => (fetchApi r, {| ui := ui w; sent := sent w ++ [r] |}).

(** Lift a built-in that may throw. *)
Definition lift {A} (c : Completion A) : Async A := fun w => (c, w).

(** [try { body } catch (err) { handler }] *)
Definition try_catch {A} (body : Async A) (handler : Thrown -> Async A)
    : Async A :=
  fun w =>
    match body w with
    | (Normal a, w') => (Normal a, w')
    | (Abrupt e, w') => handler e w'
    end.

(** [try { body } finally { fin }]: the completion of [body] is kept
    unless [fin] itself throws. *)
Definition try_finally {A} (body : Async A) (fin : Async unit) : Async A :=
  fun w =>
    match body w with
    | (c, w') =>
        match fin w' with
        | (Normal _, w'') => (c, w'')
        | (Abrupt e, w'') => (Abrupt e, w'')
        end
    end.
End Handler.
Arguments World St : clear implicits.
Arguments Async St A : clear implicits.

(** ** Numbers *)

(** [Math.floor] and [Math.round] (halves go up) on a finite number. *)
Definition Math_floor (x : Q) : Z := Qfloor x.
Definition Math_round (x : Q) : Z := Qfloor (x + (1 # 2)).

(** [a % b]: the remainder has the sign of the dividend, the quotient
    is truncated toward zero. *)
Definition trunc (x : Q) : Z :=
  if Qle_bool 0 x then Qfloor x else Qceiling x.
Definition rem (a b : Q) : Q := a - b * inject_Z (trunc (a / b)).

(** An integral number inside a template literal prints in decimal
    (below 1e21, where JavaScript switches to exponent form). *)
Definition to_string (n : Z) : string := pretty n.

End Js.

Notation "'do' x <- m ; k" := (Js.bind m (fun x => k))
  (at level 10, x name, m at level 100, k at level 200,
   format "'[v' 'do'  x  <-  m ; '/' k ']'").
Notation "m ;;; k" := (Js.bind m (fun _ => k))
  (at level 100, k at level 200, right associativity).

(* ================================================================== *)
(** * pages/ActiveCheckins.tsx *)
(* ================================================================== *)

Module ActiveCheckins.
Import Js.

Record ActiveCheckin : Type := mkActiveCheckin {
  id : Z;
  pokemon_id : Z;
  pokemon_name : string;
  type_primary : string;
  type_secondary : option string;
  machine_id : Z;
  machine_name : string;
  machine_location : string;
  arrived_at : string;
  initial_hp : Z;
  max_hp : Z;
  minutes_in_treatment : Q
}.

Record ActiveCheckinsResponse : Type := mkResponse {
  active_checkins : list ActiveCheckin;
  count : Z
}.

(** [useState<"success" | "fail">] *)
Inductive DismissOutcome : Type := success | fail.

Definition outcome_text (o : DismissOutcome) : string :=
  match o with
  | success => "success"
  | fail => "fail"
  end.

(** The [useState] cells of the component. *)
Record State : Type := mkState {
  checkins : option ActiveCheckinsResponse;
  loading : bool;
  error : option string;
  dismissDialogOpen : bool;
  selectedCheckin : option ActiveCheckin;
  dismissOutcome : DismissOutcome;
  dismissing : bool
}.

Definition setCheckins (f : option ActiveCheckinsResponse ->
                            option ActiveCheckinsResponse) (s : State) :=
  {| checkins := f (checkins s); loading := loading s; error := error s;
     dismissDialogOpen := dismissDialogOpen s;
     selectedCheckin := selectedCheckin s;
     dismissOutcome := dismissOutcome s; dismissing := dismissing s |}.
Definition setLoading (b : bool) (s : State) :=
  {| checkins := checkins s; loading := b; error := error s;
     dismissDialogOpen := dismissDialogOpen s;
     selectedCheckin := selectedCheckin s;
     dismissOutcome := dismissOutcome s; dismissing := dismissing s |}.
Definition setError (e : option string) (s : State) :=
  {| checkins := checkins s; loading := loading s; error := e;
     dismissDialogOpen := dismissDialogOpen s;
     selectedCheckin := selectedCheckin s;
     dismissOutcome := dismissOutcome s; dismissing := dismissing s |}.
Definition setDismissDialogOpen (b : bool) (s : State) :=
  {| checkins := checkins s; loading := loading s; error := error s;
     dismissDialogOpen := b;
     selectedCheckin := selectedCheckin s;
     dismissOutcome := dismissOutcome s; dismissing := dismissing s |}.
Definition setSelectedCheckin (c : option ActiveCheckin) (s : State) :=
  {| checkins := checkins s; loading := loading s; error := error s;
     dismissDialogOpen := dismissDialogOpen s;
     selectedCheckin := c;
     dismissOutcome := dismissOutcome s; dismissing := dismissing s |}.
Definition setDismissOutcome (o : DismissOutcome) (s : State) :=
  {| checkins := checkins s; loading := loading s; error := error s;
     dismissDialogOpen := dismissDialogOpen s;
     selectedCheckin := selectedCheckin s;
     dismissOutcome := o; dismissing := dismissing s |}.
Definition setDismissing (b : bool) (s : State) :=
  {| checkins := checkins s; loading := loading s; error := error s;
     dismissDialogOpen := dismissDialogOpen s;
     selectedCheckin := selectedCheckin s;
     dismissOutcome := dismissOutcome s; dismissing := b |}.

Definition initial : State :=
  {| checkins := None; loading := true; error := None;
     dismissDialogOpen := false; selectedCheckin := None;
     dismissOutcome := success; dismissing := false |}.

Definition openDismissDialog (checkin : ActiveCheckin) (s : State) : State :=
  setDismissDialogOpen true
    (setDismissOutcome success (setSelectedCheckin (Some checkin) s)).

(** [`/checkins/dismiss/${selectedCheckin.id}?outcome=${dismissOutcome}`]
    with [{ method: "POST" }] *)
Definition dismiss_url (c : ActiveCheckin) (o : DismissOutcome) : string :=
  "/checkins/dismiss/" +:+ to_string (id c) +:+ "?outcome=" +:+ outcome_text o.

Definition dismiss_request (c : ActiveCheckin) (o : DismissOutcome) : Request :=
  {| url := dismiss_url c o; method := Some "POST"; body := None |}.

(** The updater handed to [setCheckins] after a successful dismiss. *)
Definition remove_dismissed (sel : ActiveCheckin)
    (prev : option ActiveCheckinsResponse) : option ActiveCheckinsResponse :=
  match prev with
  | Some p =>
      Some {| active_checkins :=
                List.filter (fun c => negb (id c =? id sel)%Z)
                            (active_checkins p);
              count := (count p - 1)%Z |}
  | None => None
  end.

Section Handlers.
(** [fetchApi] at the two types it is called at. *)
Context {R : Type}.
Variable fetchActive : Request -> Completion ActiveCheckinsResponse.
Variable fetchApi : Request -> Completion R.

Definition fetchData : Async State unit :=
  update (setLoading true) ;;;
  update (setError None) ;;;
  try_finally
    (try_catch
       (do data <- await_fetch fetchActive (get "/checkins/active");
        update (setCheckins (fun _ => Some data)))
       (fun err =>
          update (setError (Some (message_or "Failed to load data" err)))))
    (update (setLoading false)).

(** The handler closes over [selectedCheckin] and [dismissOutcome] as
    they were when it was created, that is over the state [s0] the
    click happened in. *)
Definition handleDismiss (s0 : State) : Async State unit :=
  match selectedCheckin s0 with
  | None => ret tt
  | Some sel =>
      update (setDismissing true) ;;;
      try_finally
        (try_catch
           (await_fetch fetchApi (dismiss_request sel (dismissOutcome s0)) ;;;
            update (setCheckins (remove_dismissed sel)) ;;;
            update (setDismissDialogOpen false) ;;;
            update (setSelectedCheckin None))
           (fun err =>
              update (setError
                (Some (message_or "Failed to dismiss check-in" err)))))
        (update (setDismissing false))
  end.

(** A click on "Confirm Dismiss" in state [s]. *)
Definition click_dismiss (s : State) : Completion unit * World State :=
  handleDismiss s {| ui := s; sent := [] |}.
End Handlers.

(** How often an id occurs in the list. *)
Definition occurrences (i : Z) (l : list ActiveCheckin) : nat :=
  length (List.filter (fun c => (id c =? i)%Z) l).

(** [formatTreatmentTime] *)
Definition formatTreatmentTime (minutes : Q) : string :=
  if Qlt_le_dec minutes 60 then
    to_string (Math_round minutes) +:+ " min"
  else
    let hours := Math_floor (minutes / 60) in
    let mins := Math_round (rem minutes 60) in
    to_string hours +:+ "h " +:+ to_string mins +:+ "m".

End ActiveCheckins.

(* ================================================================== *)
(** * hooks/useApi.ts *)
(* ================================================================== *)

Module UseApi.
Import Js.

Section Hook.
Context {T : Type}.

Record UseApiState : Type := mkUseApiState {
  data : option T;
  loading : bool;
  error : option string
}.

Definition initial : UseApiState :=
  {| data := None; loading := true; error := None |}.

Variable fetchApi : Request -> Completion T.
Variable endpoint : string.

Definition fetchData : Async UseApiState unit :=
  update (fun prev => {| data := data prev; loading := true; error := None |}) ;;;
  try_catch
    (do d <- await_fetch fetchApi (get endpoint);
     update (fun _ => {| data := Some d; loading := false; error := None |}))
    (fun err =>
       update (fun _ =>
         {| data := None; loading := false;
            error := Some (message_or "An error occurred" err) |})).

End Hook.
Arguments UseApiState T : clear implicits.

End UseApi.

Module UseMutation.
Import Js.

(** [method: "POST" | "PUT" | "DELETE" = "POST"] *)
Inductive Method : Type := POST | PUT | DELETE.

Definition method_text (m : Method) : string :=
  match m with
  | POST => "POST"
  | PUT => "PUT"
  | DELETE => "DELETE"
  end.

Record MutationState : Type := mkMutationState {
  loading : bool;
  error : option string
}.

Definition initial : MutationState := {| loading := false; error := None |}.

Definition setLoading (b : bool) (s : MutationState) : MutationState :=
  {| loading := b; error := error s |}.
Definition setError (e : option string) (s : MutationState) : MutationState :=
  {| loading := loading s; error := e |}.

Section Hook.
Context {T P : Type}.
Variable fetchApi : Request -> Completion T.
(** The built-ins the body of the request goes through: the truthiness
    of [params] and [JSON.stringify], which throws on a cyclic value. *)
Variable truthy : P -> bool.
Variable JSON_stringify : P -> Completion string.
Variable endpoint : string.
Variable method : Method.

(** [params ? JSON.stringify(params) : undefined] *)
Definition request_body (params : option P) : Completion (option string) :=
  match params with
  | Some p =>
      if truthy p then
        match JSON_stringify p with
        | Normal text => Normal (Some text)
        | Abrupt err => Abrupt err
        end
      else Normal None
  | None => Normal None
  end.

(** The promise resolves with [T | null]: [Some] is the parsed
    response, [None] is [null]. *)
Definition mutate (params : option P) : Async MutationState (option T) :=
  update (setLoading true) ;;;
  update (setError None) ;;;
  try_catch
    (do b <- lift (request_body params);
     do d <- await_fetch fetchApi
               (mkRequest endpoint (Some (method_text method)) b);
     update (setLoading false) ;;;
     ret (Some d))
    (fun err =>
       update (setError (Some (message_or "An error occurred" err))) ;;;
       update (setLoading false) ;;;
       ret None).

End Hook.

End UseMutation.

(* ================================================================== *)
(** * pages/Machines.tsx *)
(* ================================================================== *)

Module Machines.
Import Js.

(** A JSON value as [fetchApi] hands it over.  An object met at the
    top level is a finite map from property names to values; inside a
    value it is kept as its list of properties. *)
#[local] Set Warnings "-register-all".
Inductive JsVal : Type :=
| VNull
| VNum (q : Q)
| VStr (s : string)
| VArr (items : list JsVal)
| VObj (fields : list (string * JsVal)).

Abbreviation JsObject := (gmap string JsVal).

Record Patient : Type := mkPatient {
  pokemon_name : string;
  type_primary : string;
  type_secondary : option string;
  arrived_at : string;
  initial_hp : Z;
  max_hp : Z;
  checkin_id : Z
}.

(** [interface Machine].  The average is typed [number]; the table
    reads it through [?.], it is null for a machine that completed
    nothing. *)
Record Machine : Type := mkMachine {
  id : Z;
  name : string;
  model : string;
  location : string;
  total_checkins : Z;
  success_rate : Q;
  successful : Z;
  failed : Z;
  avg_healing_time_minutes : option Q;
  current_patients : list Patient
}.

(** [interface CompareMachine extends Machine].  [is_baseline] is a
    number, used for its truthiness; [healing_time_delta] is guarded
    with [&&] before it is shown. *)
Record CompareMachine : Type := mkCompareMachine {
  machine : Machine;
  success_rate_delta : Q;
  checkins_delta : Z;
  healing_time_delta : option Q;
  is_baseline : Z
}.

Record CompareResponse : Type := mkCompareResponse {
  baseline_id : Z;
  machines : list CompareMachine
}.

(** [const isCompareMachine = (m) => "success_rate_delta" in m] *)
Definition isCompareMachine (m : JsObject) : bool :=
  match m !! "success_rate_delta" with
  | Some _ => true
  | None => false
  end.

(** The tagged variant the design notes ask for, and the JSON objects
    its two cases are received as. *)
Inductive MachineView : Type :=
| Plain (summary : Machine)
| Compared (entry : CompareMachine).

Definition is_compared (v : MachineView) : bool :=
  match v with
  | Plain _ => false
  | Compared _ => true
  end.

Definition nullable {A} (f : A -> JsVal) (o : option A) : JsVal :=
  match o with
  | Some a => f a
  | None => VNull
  end.

Definition int (z : Z) : JsVal := VNum (inject_Z z).

Definition patient_json (p : Patient) : JsVal :=
  VObj [("pokemon_name", VStr (pokemon_name p));
        ("type_primary", VStr (type_primary p));
        ("type_secondary", nullable VStr (type_secondary p));
        ("arrived_at", VStr (arrived_at p));
        ("initial_hp", int (initial_hp p));
        ("max_hp", int (max_hp p));
        ("checkin_id", int (checkin_id p))].

Definition machine_json (m : Machine) : JsObject :=
  <["id" := int (id m)]>
  (<["name" := VStr (name m)]>
  (<["model" := VStr (model m)]>
  (<["location" := VStr (location m)]>
  (<["total_checkins" := int (total_checkins m)]>
  (<["success_rate" := VNum (success_rate m)]>
  (<["successful" := int (successful m)]>
  (<["failed" := int (failed m)]>
  (<["avg_healing_time_minutes" := nullable VNum (avg_healing_time_minutes m)]>
  (<["current_patients" := VArr (map patient_json (current_patients m))]>
   ∅))))))))).

Definition compare_json (e : CompareMachine) : JsObject :=
  <["success_rate_delta" := VNum (success_rate_delta e)]>
  (<["checkins_delta" := int (checkins_delta e)]>
  (<["healing_time_delta" := nullable VNum (healing_time_delta e)]>
  (<["is_baseline" := int (is_baseline e)]>
   (machine_json (machine e))))).

Definition view_json (v : MachineView) : JsObject :=
  match v with
  | Plain m => machine_json m
  | Compared e => compare_json e
  end.

(** Does the object carry every property [CompareMachine] adds? *)
Definition has_compare_fields (m : JsObject) : bool :=
  forallb (fun k => bool_decide (is_Some (m !! k)))
    ["success_rate_delta"; "checkins_delta"; "healing_time_delta"; "is_baseline"].

Section Formatting.
(** [Number.prototype.toString] of a magnitude from 1e21 on, the
    exponent form ("1e+21"); it is the engine's and is left open. *)
Variable exponent_form : Q -> string.

(** [delta.toFixed(1)]: the sign, then, for a magnitude below 1e21,
    the nearest number with one decimal (halves away from zero) with
    its decimal digit, and from 1e21 on the exponent form of the
    magnitude. *)
Definition toFixed1 (x : Q) : string :=
  let tenths := Qfloor (Qabs x * 10 + (1 # 2)) in
  (if Qlt_le_dec x 0 then "-" else "") +:+
  (if Qle_bool (inject_Z (10 ^ 21)) (Qabs x) then exponent_form (Qabs x)
   else to_string (tenths / 10)%Z +:+ "." +:+ to_string (tenths mod 10)%Z).

(** [formatDelta] *)
Definition formatDelta (delta : Q) (suffix : string) : string :=
  if Qeq_bool delta 0 then "-"
  else
    let sign := if Qlt_le_dec 0 delta then "+" else "" in
    sign +:+ toFixed1 delta +:+ suffix.
End Formatting.

End Machines.

(* ================================================================== *)
(** * pages/Dashboard.tsx *)
(* ================================================================== *)

Module Dashboard.

(** [URLSearchParams]: an ordered list of pairs; [set] overwrites the
    first pair with the name and drops the others, or appends. *)
Definition URLSearchParams := list (string * string).

Fixpoint set (k v : string) (ps : URLSearchParams) : URLSearchParams :=
  match ps with
  | [] => [(k, v)]
  | (k', v') :: rest =>
      if String.eqb k' k
      then (k, v) :: List.filter (fun p => negb (String.eqb (fst p) k)) rest
      else (k', v') :: set k v rest
  end.

Definition get (k : string) (ps : URLSearchParams) : option string :=
  match List.find (fun p => String.eqb (fst p) k) ps with
  | Some p => Some (snd p)
  | None => None
  end.

(** A string is truthy when it is not empty. *)
Definition truthy (s : string) : bool := negb (String.eqb s "").

(** [searchParams.get(k) || fallback] *)
Definition get_or (k fallback : string) (ps : URLSearchParams) : string :=
  match get k ps with
  | Some v => if truthy v then v else fallback
  | None => fallback
  end.

(** The filter state read from the address bar. *)
Record Filters : Type := mkFilters {
  startDate : string;
  endDate : string;
  groupBy : string;
  segmentBy : string
}.

Definition filters_of (searchParams : URLSearchParams) : Filters :=
  {| startDate := get_or "start" "" searchParams;
     endDate := get_or "end" "" searchParams;
     groupBy := get_or "groupBy" "day" searchParams;
     segmentBy := get_or "segmentBy" "" searchParams |}.

(** The values the "Segment By" select offers, and what choosing one
    stores: [updateFilter("segmentBy", v === "none" ? "" : v)]. *)
Definition segment_options : list string := ["none"; "type"; "pokemon"].

Definition segment_choice (v : string) : string :=
  if String.eqb v "none" then "" else v.

(** The query [fetchData] builds for [/metrics/checkins]. *)
Definition checkins_params (f : Filters) : URLSearchParams :=
  let params := [] in
  let params := if truthy (startDate f) then set "start_date" (startDate f) params else params in
  let params := if truthy (endDate f) then set "end_date" (endDate f) params else params in
  let params := set "group_by" (groupBy f) params in
  let params := if truthy (segmentBy f) then set "segment_by" (segmentBy f) params else params in
  params.

(** The leaderboards request of [fetchData]: ["/leaderboards?limit=5"]. *)
Definition leaderboards_query : URLSearchParams := [("limit", "5")].

End Dashboard.

(* ================================================================== *)
(** * The metrics core *)
(* ================================================================== *)

(** The aggregation and comparison engine runs in the backend, which is
    not among the sources; what follows is written from its
    specification.  The shapes of its answers are the interfaces the
    pages declare ([Machines.Machine], [Machines.CompareMachine]). *)

Module Core.
#[local] Open Scope Q_scope.

(** Modelled from the spec: the failure taxonomy of the core (section
    7), the backend that raises it being absent.  [InvalidInput] is a
    validation failure with its description, [NotFound] an unknown
    reference, [DivideByZero] the arithmetic fault a division by zero
    would be. *)
Inductive CoreError : Type :=
| InvalidInput (what : string)
| NotFound (what : string)
| DivideByZero.

(** Modelled from the spec: sequencing of fallible steps of the absent
    backend, the first failure being the answer. *)
Definition and_then {A B} (r : CoreError + A) (k : A -> CoreError + B)
    : CoreError + B :=
  match r with
  | inl e => inl e
  | inr a => k a
  end.

(** Modelled from the spec: a fallible step applied to every element,
    for the rankings of the absent leaderboard engine. *)
Fixpoint for_each {A B} (f : A -> CoreError + B) (l : list A)
    : CoreError + list B :=
  match l with
  | [] => inr []
  | a :: rest =>
      and_then (f a) (fun b =>
      and_then (for_each f rest) (fun bs => inr (b :: bs)))
  end.

(** Modelled from the spec: the outcome of a completed check-in
    (section 3), the store schema being absent. *)
Inductive Outcome : Type := successful | failed.

(** Modelled from the spec: a check-in row of the absent record store
    (sections 3 and 6).  Timestamps are whole seconds. *)
Record Checkin : Type := mkCheckin {
  id : Z;
  subject_id : Z;
  machine_id : Z;
  arrived_at : Z;
  healed_at : option Z;
  outcome : option Outcome;
  initial_hp : Z;
  max_hp : Z
}.

(** Modelled from the spec: a subject row of the absent record store
    (sections 3 and 6). *)
Record Subject : Type := mkSubject {
  subject_key : Z;
  name : string;
  type_primary : string;
  type_secondary : option string
}.

(** Modelled from the spec: "a check-in is active iff its completion
    timestamp is absent" (section 3), for the absent aggregation
    engine. *)
Definition is_completed (c : Checkin) : bool :=
  match healed_at c with
  | Some _ => true
  | None => false
  end.

(** Modelled from the spec: "completed with successful outcome"
    (section 4.3), for the absent aggregation engine. *)
Definition is_successful (c : Checkin) : bool :=
  is_completed c &&
  match outcome c with
  | Some successful => true
  | _ => false
  end.

(** Modelled from the spec: "completed with failed outcome" (section
    4.3), for the absent aggregation engine. *)
Definition is_failed (c : Checkin) : bool :=
  is_completed c &&
  match outcome c with
  | Some failed => true
  | _ => false
  end.

(** Modelled from the spec: the counts of the absent aggregation
    engine. *)
Definition count_where (p : Checkin -> bool) (cs : list Checkin) : Z :=
  Z.of_nat (length (List.filter p cs)).

(** Modelled from the spec: the division of the absent backend, a fault
    on a zero divisor. *)
Definition divide (a b : Q) : CoreError + Q :=
  if Qeq_bool b 0 then inl DivideByZero else inr (a / b).

(** Modelled from the spec: [round(x, 1)] of section 4.3, the nearest
    number with one decimal (halves go up). *)
Definition round1 (x : Q) : Q := Qfloor (x * 10 + (1 # 2)) # 10.

(** Modelled from the spec: the success rate of section 4.3,
    [round(successful / total * 100, 1)] over completed check-ins only
    and 0 when none is completed; the backend function is absent. *)
Definition success_rate (cs : list Checkin) : CoreError + Q :=
  let completed := count_where is_completed cs in
  if (completed =? 0)%Z then inr 0
  else
    and_then (divide (inject_Z (count_where is_successful cs))
                     (inject_Z completed))
             (fun ratio => inr (round1 (ratio * 100))).

(** Modelled from the spec: the treatment duration in minutes of a
    check-in, for the absent per-machine aggregation. *)
Definition duration_minutes (c : Checkin) : Q :=
  match healed_at c with
  | Some h => (h - arrived_at c)%Z # 60
  | None => 0
  end.

(** Modelled from the spec: "average treatment duration in minutes
    (over completed check-ins only)", absent when nothing is completed
    (sections 3 and 4.5); the backend function is absent. *)
Definition avg_healing_time (cs : list Checkin) : CoreError + option Q :=
  let done := List.filter is_completed cs in
  if (Z.of_nat (length done) =? 0)%Z then inr None
  else
    and_then (divide (fold_right Qplus 0 (map duration_minutes done))
                     (inject_Z (Z.of_nat (length done))))
             (fun avg => inr (Some avg)).

(** ** Query options *)

(** Modelled from the spec: the values of [group_by] (section 6), the
    request validation of the backend being absent. *)
Inductive GroupBy : Type := by_day | by_hour.

(** Modelled from the spec: the values of [segment_by] (section 6), the
    request validation of the backend being absent. *)
Inductive SegmentBy : Type := seg_none | seg_type | seg_subject.

(** Modelled from the spec: the recognized spellings of [segment_by]
    (section 6), the request validation of the backend being absent. *)
Definition segment_by_values : list string := ["none"; "type"; "subject"].

(** Modelled from the spec: validation of [group_by], default day,
    anything unrecognized rejected (sections 6 and 7); the backend
    validation is absent. *)
Definition parse_group_by (raw : option string) : CoreError + GroupBy :=
  match raw with
  | None => inr by_day
  | Some text =>
      if String.eqb text "day" then inr by_day
      else if String.eqb text "hour" then inr by_hour
      else inl (InvalidInput ("group_by must be day or hour, got " +:+ text))
  end.

(** Modelled from the spec: validation of [segment_by], default none,
    anything unrecognized rejected (sections 6 and 7); the backend
    validation is absent. *)
Definition parse_segment_by (raw : option string) : CoreError + SegmentBy :=
  match raw with
  | None => inr seg_none
  | Some text =>
      if String.eqb text "none" then inr seg_none
      else if String.eqb text "type" then inr seg_type
      else if String.eqb text "subject" then inr seg_subject
      else inl (InvalidInput
                  ("segment_by must be none, type or subject, got " +:+ text))
  end.

(** Modelled from the spec: validation of the leaderboard [limit],
    default 5 and at least 1 (sections 4.4 and 7); the backend
    validation is absent. *)
Definition validate_limit (raw : option Z) : CoreError + Z :=
  match raw with
  | None => inr 5%Z
  | Some n =>
      if (n <? 1)%Z
      then inl (InvalidInput ("limit must be at least 1, got " +:+ pretty n))
      else inr n
  end.

(** Modelled from the spec: the options of a trend request (section
    6), as the absent backend receives them. *)
Record TrendQuery : Type := mkTrendQuery {
  start_date : option string;
  end_date : option string;
  group_by : option string;
  segment_by : option string
}.

Section Trend.
Context {Series : Type}.
(** The bucketing, segmentation and aggregation of a validated request
    are left open. *)
Variable engine :
  GroupBy -> SegmentBy -> option string -> option string ->
  list Checkin -> Series.

(** Modelled from the spec: a trend request is validated before
    anything is computed (section 7 (a)); the backend handler is
    absent. *)
Definition trend (q : TrendQuery) (rows : list Checkin) : CoreError + Series :=
  and_then (parse_group_by (group_by q)) (fun g =>
  and_then (parse_segment_by (segment_by q)) (fun sg =>
  inr (engine g sg (start_date q) (end_date q) rows))).
End Trend.

(** ** Leaderboards *)

(** Modelled from the spec: what a leaderboard ranks (section 4.4), a
    subject by identifier or a category by name; the backend engine is
    absent. *)
Inductive Entity : Type :=
| SubjectEntity (key : Z) (label : string)
| CategoryEntity (label : string).

(** Modelled from the spec: [LeaderboardEntry] of section 3, for the
    absent leaderboard engine. *)
Record LeaderboardEntry : Type := mkLeaderboardEntry {
  entity : Entity;
  total_checkins : Z;
  successful_heals : Z;
  rate : Q
}.

(** Modelled from the spec: the output of the absent leaderboard
    engine (section 6). *)
Record Leaderboards : Type := mkLeaderboards {
  top_subjects : list LeaderboardEntry;
  top_categories : list LeaderboardEntry
}.

(** Modelled from the spec: an entry with its own success rate
    (section 4.4), for the absent leaderboard engine. *)
Definition entry_for (e : Entity) (mine : list Checkin)
    : CoreError + LeaderboardEntry :=
  and_then (success_rate mine) (fun r =>
  inr {| entity := e;
         total_checkins := Z.of_nat (length mine);
         successful_heals := count_where is_successful mine;
         rate := r |}).

(** Modelled from the spec: the tie-break of section 4.4, ascending
    identifier for subjects and lexicographic name for categories. *)
Definition entity_le (a b : Entity) : bool :=
  match a, b with
  | SubjectEntity ka _, SubjectEntity kb _ => (ka <=? kb)%Z
  | CategoryEntity la, CategoryEntity lb => String.leb la lb
  | SubjectEntity _ _, CategoryEntity _ => true
  | CategoryEntity _, SubjectEntity _ _ => false
  end.

(** Modelled from the spec: the ranking order of section 4.4, more
    successful heals first, ties by [entity_le]. *)
Definition ranks_before (a b : LeaderboardEntry) : bool :=
  (successful_heals b <? successful_heals a)%Z ||
  ((successful_heals a =? successful_heals b)%Z &&
   entity_le (entity a) (entity b)).

(** Modelled from the spec: sorting by the ranking order, for the
    absent leaderboard engine. *)
Fixpoint place (e : LeaderboardEntry) (ranked : list LeaderboardEntry)
    : list LeaderboardEntry :=
  match ranked with
  | [] => [e]
  | r :: rest => if ranks_before e r then e :: r :: rest else r :: place e rest
  end.

(** Modelled from the spec: sorting by the ranking order, for the
    absent leaderboard engine. *)
Definition rank (es : list LeaderboardEntry) : list LeaderboardEntry :=
  fold_right place [] es.

(** Modelled from the spec: the primary category of the subject a
    check-in refers to, none for an orphaned reference (section 4.2). *)
Definition category_of (subjects : list Subject) (c : Checkin) : option string :=
  match List.find (fun s => (subject_key s =? subject_id c)%Z) subjects with
  | Some s => Some (type_primary s)
  | None => None
  end.

(** Modelled from the spec: "top N subjects by successful-heal count"
    over the whole history (section 4.4); the backend engine is
    absent. *)
Definition rank_subjects (n : nat) (subjects : list Subject)
    (rows : list Checkin) : CoreError + list LeaderboardEntry :=
  and_then
    (for_each
       (fun s =>
          entry_for (SubjectEntity (subject_key s) (name s))
            (List.filter (fun c => (subject_id c =? subject_key s)%Z) rows))
       subjects)
    (fun es => inr (take n (rank es))).

(** Modelled from the spec: "top N categories by successful-heal
    count" over the whole history (section 4.4); the backend engine is
    absent. *)
Definition rank_categories (n : nat) (subjects : list Subject)
    (rows : list Checkin) : CoreError + list LeaderboardEntry :=
  and_then
    (for_each
       (fun t =>
          entry_for (CategoryEntity t)
            (List.filter
               (fun c => match category_of subjects c with
                         | Some t' => String.eqb t' t
                         | None => false
                         end) rows))
       (remove_dups (map type_primary subjects)))
    (fun es => inr (take n (rank es))).

(** Modelled from the spec: the leaderboard request, its limit
    validated first (sections 4.4 and 7); the backend handler is
    absent. *)
Definition leaderboards (limit : option Z) (subjects : list Subject)
    (rows : list Checkin) : CoreError + Leaderboards :=
  and_then (validate_limit limit) (fun n =>
  and_then (rank_subjects (Z.to_nat n) subjects rows) (fun ss =>
  and_then (rank_categories (Z.to_nat n) subjects rows) (fun ts =>
  inr {| top_subjects := ss; top_categories := ts |}))).

(** ** Comparison *)

(** Modelled from the spec: the healing-time delta is absent when
    either side has no average (section 4.5); the backend engine is
    absent. *)
Definition time_delta (mine baseline : option Q) : option Q :=
  match mine, baseline with
  | Some x, Some y => Some (x - y)
  | _, _ => None
  end.

(** Modelled from the spec: one [ComparisonEntry] (section 4.5): zero
    deltas and the flag for the baseline, value minus baseline value
    otherwise, the rate delta kept to one decimal; the backend engine
    is absent. *)
Definition compare_entry (baseline m : Machines.Machine)
    : Machines.CompareMachine :=
  if (Machines.id m =? Machines.id baseline)%Z then
    {| Machines.machine := m;
       Machines.success_rate_delta := 0;
       Machines.checkins_delta := 0;
       Machines.healing_time_delta := Some 0;
       Machines.is_baseline := 1 |}
  else
    {| Machines.machine := m;
       Machines.success_rate_delta :=
         round1 (Machines.success_rate m - Machines.success_rate baseline);
       Machines.checkins_delta :=
         (Machines.total_checkins m - Machines.total_checkins baseline)%Z;
       Machines.healing_time_delta :=
         time_delta (Machines.avg_healing_time_minutes m)
                    (Machines.avg_healing_time_minutes baseline);
       Machines.is_baseline := 0 |}.

(** Modelled from the spec: looking the baseline up among the known
    machines (section 4.5); the backend engine is absent. *)
Definition find_baseline (baseline_id : Z) (ms : list Machines.Machine)
    : option Machines.Machine :=
  List.find (fun m => (Machines.id m =? baseline_id)%Z) ms.

(** Modelled from the spec: the comparison table, one entry per
    machine, "baseline not found" for an unknown identifier (section
    4.5); the backend engine is absent. *)
Definition compare (baseline_id : Z) (ms : list Machines.Machine)
    : CoreError + Machines.CompareResponse :=
  match find_baseline baseline_id ms with
  | None => inl (NotFound ("baseline not found: " +:+ pretty baseline_id))
  | Some b =>
      inr {| Machines.baseline_id := baseline_id;
             Machines.machines := map (compare_entry b) ms |}
  end.

(** ** Lifecycle *)

(** Modelled from the spec: the arrival that creates a check-in row,
    active and without outcome (section 3, lifecycle); the record
    store is absent. *)
Definition arrive (key subject machine now hp hp_max : Z) : Checkin :=
  {| id := key; subject_id := subject; machine_id := machine;
     arrived_at := now; healed_at := None; outcome := None;
     initial_hp := hp; max_hp := hp_max |}.

(** Modelled from the spec: the dismiss of one row, "a simple
    single-row update" that "sets completion timestamp + outcome" and
    that a row undergoes exactly once, a completed row being left as
    it is (sections 1 and 3); the backend endpoint is absent. *)
Definition dismiss_row (now : Z) (o : Outcome) (c : Checkin) : Checkin :=
  if is_completed c then c
  else
    {| id := id c; subject_id := subject_id c; machine_id := machine_id c;
       arrived_at := arrived_at c; healed_at := Some now; outcome := Some o;
       initial_hp := initial_hp c; max_hp := max_hp c |}.

(** Modelled from the spec: the two external events of the lifecycle
    of section 3, arrival and dismiss; the record store is absent. *)
Inductive Event : Type :=
| Arrival (key subject machine now hp hp_max : Z)
| Dismissal (key now : Z) (o : Outcome).

(** Modelled from the spec: the effect of one event on the rows, an
    arrival adding a row and a dismiss updating the row it names
    (section 3, lifecycle); the record store is absent. *)
Definition apply_event (rows : list Checkin) (ev : Event) : list Checkin :=
  match ev with
  | Arrival key subject machine now hp hp_max =>
      rows ++ [arrive key subject machine now hp hp_max]
  | Dismissal key now o =>
      map (fun c => if (id c =? key)%Z then dismiss_row now o c else c) rows
  end.

(** Modelled from the spec: the rows after a history of events,
    starting from an empty store; the record store is absent. *)
Definition replay (history : list Event) : list Checkin :=
  fold_left apply_event history [].

(** A number with at most one decimal. *)
Definition one_decimal (x : Q) : Prop := exists n : Z, x == n # 10.

End Core.

(* ================================================================== *)
(** * Promise.all *)
(* ================================================================== *)

Module Promise.
Import Js.

(** A started request is a promise; here it is the completion it will
    settle with. *)
Definition rejection {A} (c : Completion A) : option Thrown :=
  match c with
  | Normal _ => None
  | Abrupt e => Some e
  end.

(** [Promise.all] rejects with the reason of the promise that rejects
    first in time.  The order in which the promises settle is not
    decided by the program: it is the list [order] of array positions,
    completed by the array order. *)
Fixpoint scan (idx : list nat) (rs : list (option Thrown)) : option Thrown :=
  match idx with
  | [] => None
  | i :: rest =>
      match nth_error rs i with
      | Some (Some e) => Some e
      | _ => scan rest rs
      end
  end.

Definition first_rejection (order : list nat) (rs : list (option Thrown))
    : option Thrown :=
  scan (order ++ seq 0 (length rs)) rs.

Section Ops.
Context {St : Type}.

(** Calling [fetchApi(...)] without awaiting it: the request leaves,
    the promise is kept. *)
Definition start_fetch {A} (fetchApi : Request -> Completion A) (r : Request)
    : Async St (Completion A) :=
  fun w => (Normal (fetchApi r), {| ui := ui w; sent := sent w ++ [r] |}).

(** [await Promise.all([p1, p2])] *)
Definition await_all2 {A B} (order : list nat)
    (p1 : Completion A) (p2 : Completion B) : Async St (A * B) :=
  lift
    match p1, p2 with
    | Normal a, Normal b => Normal (a, b)
    | _, _ =>
        match first_rejection order [rejection p1; rejection p2] with
        | Some e => Abrupt e
        | None => Abrupt NonError
        end
    end.

(** [await Promise.all([p1, p2, p3])] *)
Definition await_all3 {A B C} (order : list nat)
    (p1 : Completion A) (p2 : Completion B) (p3 : Completion C)
    : Async St (A * B * C) :=
  lift
    match p1, p2, p3 with
    | Normal a, Normal b, Normal c => Normal (a, b, c)
    | _, _, _ =>
        match first_rejection order
                [rejection p1; rejection p2; rejection p3] with
        | Some e => Abrupt e
        | None => Abrupt NonError
        end
    end.
End Ops.

End Promise.

(* ================================================================== *)
(** * pages/Dashboard.tsx: the page *)
(* ================================================================== *)

Module DashboardPage.
Import Js Dashboard.

(** [URLSearchParams.delete] *)
Definition delete (k : string) (ps : URLSearchParams) : URLSearchParams :=
  List.filter (fun p => negb (String.eqb (fst p) k)) ps.

(** [updateFilter]: a copy of the search parameters with the key set,
    or deleted when the value is empty. *)
Definition updateFilter (key value : string) (searchParams : URLSearchParams)
    : URLSearchParams :=
  if truthy value then set key value searchParams
  else delete key searchParams.

(** How many pairs carry the name. *)
Definition occurs (k : string) (ps : URLSearchParams) : nat :=
  length (List.filter (fun p => String.eqb (fst p) k) ps).

(** The "Segment By" select: [value={segmentBy || "none"}] and
    [onValueChange={(v) => updateFilter("segmentBy", v === "none" ? "" : v)}]. *)
Definition segment_select_value (searchParams : URLSearchParams) : string :=
  let s := segmentBy (filters_of searchParams) in
  if truthy s then s else "none".

Definition onSegmentChange (v : string) (searchParams : URLSearchParams)
    : URLSearchParams :=
  updateFilter "segmentBy" (segment_choice v) searchParams.

(** One element of [CheckinsResponse.data]. *)
Record TrendPoint : Type := mkTrendPoint {
  period : string;
  segment : option string;
  total : Z;
  successful : Z;
  failed : Z
}.

(** [s.split(" ")] for a one-character separator. *)
Fixpoint split (sep : Ascii.ascii) (s : string) : list string :=
  match s with
  | EmptyString => [""]
  | String a rest =>
      if Ascii.eqb a sep then "" :: split sep rest
      else
        match split sep rest with
        | h :: t => String a h :: t
        | [] => [String a ""]
        end
  end.

(** Does the text hold no space? *)
Fixpoint no_space (s : string) : bool :=
  match s with
  | EmptyString => true
  | String a rest => negb (Ascii.eqb a " ") && no_space rest
  end.

(** [d.period.split(" ")[1] || d.period] *)
Definition hour_label (p : string) : string :=
  match nth_error (split " "%char p) 1 with
  | Some h => if truthy h then h else p
  | None => p
  end.

Section Chart.
(** [formatDate] comes from [lib/utils]. *)
Variable formatDate : string -> string.

(** [chartData] *)
Definition chartData (groupBy : string) (data : option (list TrendPoint))
    : option (list TrendPoint) :=
  option_map
    (map (fun d =>
       {| period := if String.eqb groupBy "hour"
                    then hour_label (period d)
                    else formatDate (period d);
          segment := segment d; total := total d;
          successful := successful d; failed := failed d |}))
    data.
End Chart.

(** [.filter(Boolean)] on a list of [string | null]. *)
Fixpoint keep_truthy (l : list (option string)) : list string :=
  match l with
  | [] => []
  | Some s :: rest => if truthy s then s :: keep_truthy rest else keep_truthy rest
  | None :: rest => keep_truthy rest
  end.

(** [[...new Set(l)]]: a value is added at the end unless it is already
    there. *)
Definition Set_add (acc : list string) (s : string) : list string :=
  if existsb (String.eqb s) acc then acc else acc ++ [s].

Definition Set_of (l : list string) : list string := fold_left Set_add l [].

(** [segments] *)
Definition segments (data : option (list TrendPoint)) : list string :=
  match data with
  | Some l => Set_of (keep_truthy (map segment l))
  | None => []
  end.

(** The [dataKey] of the bar of one segment:
    [d.segment === segment ? d.total : 0]. *)
Definition bar_value (seg : string) (d : TrendPoint) : Z :=
  match segment d with
  | Some s => if String.eqb s seg then total d else 0%Z
  | None => 0%Z
  end.

(** The height of the stack over [segments.slice(0, 8)]. *)
Definition stack_height (segs : list string) (d : TrendPoint) : Z :=
  fold_right Z.add 0%Z (map (fun seg => bar_value seg d) (take 8 segs)).

(** [x || 0] on a number. *)
Definition or_zero (x : Q) : Q := if Qeq_bool x 0 then 0 else x.

(** [best?.success_rate || 0] *)
Definition best_rate (best : option Machines.Machine) : Q :=
  match best with
  | Some b => or_zero (Machines.success_rate b)
  | None => 0
  end.

(** [topMachine]: [reduce] with [machines.machines[0]] as its initial
    value; undefined when nothing is loaded or the list is empty.  The
    rows are those of [/metrics/machines], which the machines page
    reads as well. *)
Definition topMachine (machines : option (list Machines.Machine))
    : option Machines.Machine :=
  match machines with
  | Some l =>
      fold_left
        (fun best current =>
           if Qlt_le_dec (best_rate best) (or_zero (Machines.success_rate current))
           then Some current else best)
        l (head l)
  | None => None
  end.

Section Page.
(** The three response types; the page keeps them as received. *)
Context {C L M : Type}.

Record State : Type := mkState {
  checkins : option C;
  leaderboards : option L;
  machines : option M;
  loading : bool;
  error : option string
}.

Definition setCheckins (v : option C) (s : State) : State :=
  {| checkins := v; leaderboards := leaderboards s; machines := machines s;
     loading := loading s; error := error s |}.
Definition setLeaderboards (v : option L) (s : State) : State :=
  {| checkins := checkins s; leaderboards := v; machines := machines s;
     loading := loading s; error := error s |}.
Definition setMachines (v : option M) (s : State) : State :=
  {| checkins := checkins s; leaderboards := leaderboards s; machines := v;
     loading := loading s; error := error s |}.
Definition setLoading (b : bool) (s : State) : State :=
  {| checkins := checkins s; leaderboards := leaderboards s;
     machines := machines s; loading := b; error := error s |}.
Definition setError (e : option string) (s : State) : State :=
  {| checkins := checkins s; leaderboards := leaderboards s;
     machines := machines s; loading := loading s; error := e |}.

Variable fetchCheckins : Request -> Completion C.
Variable fetchLeaderboards : Request -> Completion L.
Variable fetchMachines : Request -> Completion M.
(** [`${params}`], the built-in serialization of the query. *)
Variable serialize : URLSearchParams -> string.

Definition checkins_request (f : Filters) : Request :=
  Js.get ("/metrics/checkins?" +:+ serialize (checkins_params f)).
Definition leaderboards_request : Request := Js.get "/leaderboards?limit=5".
Definition machines_request : Request := Js.get "/metrics/machines".

(** [fetchData]; [order] is the order in which the three requests
    settle. *)
Definition fetchData (order : list nat) (f : Filters) : Async State unit :=
  update (setLoading true) ;;;
  update (setError None) ;;;
  try_finally
    (try_catch
       (do p1 <- Promise.start_fetch fetchCheckins (checkins_request f);
        do p2 <- Promise.start_fetch fetchLeaderboards leaderboards_request;
        do p3 <- Promise.start_fetch fetchMachines machines_request;
        do r <- Promise.await_all3 order p1 p2 p3;
        update (setCheckins (Some (fst (fst r)))) ;;;
        update (setLeaderboards (Some (snd (fst r)))) ;;;
        update (setMachines (Some (snd r))))
       (fun err =>
          update (setError (Some (message_or "Failed to load data" err)))))
    (update (setLoading false)).
End Page.
Arguments State C L M : clear implicits.

End DashboardPage.

(* ================================================================== *)
(** * pages/Machines.tsx: the page *)
(* ================================================================== *)

Module MachinesPage.
Import Js Machines.

(** [MachinesResponse] has the one field [machines]; it is kept as that
    list. *)
Record State : Type := mkState {
  machines : option (list Machine);
  compareData : option CompareResponse;
  loading : bool;
  error : option string
}.

Definition setMachines (v : option (list Machine)) (s : State) : State :=
  {| machines := v; compareData := compareData s;
     loading := loading s; error := error s |}.
Definition setCompareData (v : option CompareResponse) (s : State) : State :=
  {| machines := machines s; compareData := v;
     loading := loading s; error := error s |}.
Definition setLoading (b : bool) (s : State) : State :=
  {| machines := machines s; compareData := compareData s;
     loading := b; error := error s |}.
Definition setError (e : option string) (s : State) : State :=
  {| machines := machines s; compareData := compareData s;
     loading := loading s; error := e |}.

(** [searchParams.get("baseline") || ""] *)
Definition baselineId (searchParams : Dashboard.URLSearchParams) : string :=
  Dashboard.get_or "baseline" "" searchParams.

Definition machines_request : Request := Js.get "/metrics/machines".
Definition compare_request (baseline : string) : Request :=
  Js.get ("/metrics/machines/compare?baseline_id=" +:+ baseline).

Section Handlers.
Variable fetchMachines : Request -> Completion (list Machine).
Variable fetchCompare : Request -> Completion CompareResponse.

(** [fetchData]; without a baseline the second promise is
    [Promise.resolve(null)].  [order] is the order in which the two
    promises settle. *)
Definition fetchData (order : list nat) (baseline : string)
    : Async State unit :=
  update (setLoading true) ;;;
  update (setError None) ;;;
  try_finally
    (try_catch
       (do p1 <- Promise.start_fetch fetchMachines machines_request;
        do p2 <- (if Dashboard.truthy baseline
                  then (do p <- Promise.start_fetch fetchCompare
                                  (compare_request baseline);
                        ret match p with
                            | Normal c => Normal (Some c)
                            | Abrupt e => Abrupt e
                            end)
                  else ret (Normal None));
        do r <- Promise.await_all2 order p1 p2;
        update (setMachines (Some (fst r))) ;;;
        update (setCompareData (snd r)))
       (fun err =>
          update (setError (Some (message_or "Failed to load data" err)))))
    (update (setLoading false)).
End Handlers.

(** [handleBaselineChange] *)
Definition handleBaselineChange (value : string)
    (searchParams : Dashboard.URLSearchParams) : Dashboard.URLSearchParams :=
  if Dashboard.truthy value && negb (String.eqb value "none")
  then Dashboard.set "baseline" value searchParams
  else DashboardPage.delete "baseline" searchParams.

(** The select shows [baselineId || "none"]. *)
Definition baseline_select_value (searchParams : Dashboard.URLSearchParams)
    : string :=
  let b := baselineId searchParams in
  if Dashboard.truthy b then b else "none".

Inductive Icon : Type := TrendingUp | TrendingDown | Minus.

(** [getDeltaIcon] *)
Definition getDeltaIcon (delta : Q) : Icon :=
  if Qlt_le_dec 0 delta then TrendingUp
  else if Qlt_le_dec delta 0 then TrendingDown
  else Minus.

Section Cells.
(** The exponent form [toFixed] falls back to, as in [Machines]. *)
Variable exponent_form : Q -> string.

(** The delta shown beside the check-ins of a comparison row:
    [compareM && !isBaseline && (...)]. *)
Definition checkins_cell (e : CompareMachine) : option (Icon * string) :=
  if (is_baseline e =? 0)%Z
  then Some (getDeltaIcon (inject_Z (checkins_delta e)),
             formatDelta exponent_form (inject_Z (checkins_delta e)) "")
  else None.

(** What a JSX expression [a && b && (<span>...)] puts on the page:
    nothing for false, null and undefined, the digit 0 when the chain
    stops at the number 0, the span otherwise. *)
Inductive Rendered : Type :=
| Blank
| Number0
| DeltaSpan (icon : Icon) (text : string).

(** The delta shown beside the average time:
    [compareM && !isBaseline && compareM.healing_time_delta && (...)],
    with the icon of the negated delta. *)
Definition healing_time_cell (e : CompareMachine) : Rendered :=
  if (is_baseline e =? 0)%Z then
    match healing_time_delta e with
    | Some d =>
        if Qeq_bool d 0 then Number0
        else DeltaSpan (getDeltaIcon (- d)) (formatDelta exponent_form d " min")
    | None => Blank
    end
  else Blank.
End Cells.

End MachinesPage.

(* ================================================================== *)
(** * pages/ActiveCheckins.tsx: what is rendered *)
(* ================================================================== *)

Module ActiveCheckinsPage.
Import Js ActiveCheckins.

(** [if (error && !checkins)]: the error card replaces the page. *)
Definition shows_error_card (s : State) : bool :=
  match error s with
  | Some e =>
      Dashboard.truthy e &&
      match checkins s with
      | Some _ => false
      | None => true
      end
  | None => false
  end.

(** A run of [fetchData] from state [s]. *)
Definition refresh (fetchActive : Request -> Completion ActiveCheckinsResponse)
    (s : State) : Completion unit * World State :=
  fetchData fetchActive {| ui := s; sent := [] |}.

End ActiveCheckinsPage.

(* ================================================================== *)
(** * Sample data *)
(* ================================================================== *)

Module Samples.
Import Js ActiveCheckins.

Definition pikachu : ActiveCheckin :=
  {| id := 7; pokemon_id := 25; pokemon_name := "Pikachu";
     type_primary := "electric"; type_secondary := None;
     machine_id := 1; machine_name := "Healer A";
     machine_location := "Lobby"; arrived_at := "2024-01-15 10:30:00";
     initial_hp := 12; max_hp := 35; minutes_in_treatment := 42 |}.

Definition bulbasaur : ActiveCheckin :=
  {| id := 9; pokemon_id := 1; pokemon_name := "Bulbasaur";
     type_primary := "grass"; type_secondary := Some "poison";
     machine_id := 2; machine_name := "Healer B";
     machine_location := "Ward 1"; arrived_at := "2024-01-15 09:05:00";
     initial_hp := 20; max_hp := 45; minutes_in_treatment := 127 # 1 |}.

(** The page showing two patients, the dialog open on the first. *)
Definition two_patients : State :=
  {| checkins := Some {| active_checkins := [pikachu; bulbasaur]; count := 2 |};
     loading := false; error := None;
     dismissDialogOpen := true; selectedCheckin := Some pikachu;
     dismissOutcome := success; dismissing := false |}.

(** The same page after a stale refresh: the selected check-in is no
    longer listed. *)
Definition stale_selection : State :=
  {| checkins := Some {| active_checkins := [bulbasaur]; count := 1 |};
     loading := false; error := None;
     dismissDialogOpen := true; selectedCheckin := Some pikachu;
     dismissOutcome := fail; dismissing := false |}.

(** A list that holds the selected check-in twice. *)
Definition listed_twice : State :=
  {| checkins := Some {| active_checkins := [pikachu; bulbasaur; pikachu];
                         count := 3 |};
     loading := false; error := None;
     dismissDialogOpen := true; selectedCheckin := Some pikachu;
     dismissOutcome := success; dismissing := false |}.

(** A backend that accepts every request, and one that is down. *)
Definition accepts : Request -> Completion unit := fun _ => Normal tt.
Definition refuses : Request -> Completion unit :=
  fun _ => Abrupt (ErrorObject "API error: 500").

(** Two machines as [/metrics/machines] lists them. *)
Definition healer_a : Machines.Machine :=
  {| Machines.id := 1; Machines.name := "Healer A";
     Machines.model := "HM-2000"; Machines.location := "Lobby";
     Machines.total_checkins := 120; Machines.success_rate := 90;
     Machines.successful := 108; Machines.failed := 12;
     Machines.avg_healing_time_minutes := Some (45 # 2);
     Machines.current_patients := [] |}.

Definition healer_b : Machines.Machine :=
  {| Machines.id := 2; Machines.name := "Healer B";
     Machines.model := "HM-1000"; Machines.location := "Ward 1";
     Machines.total_checkins := 80; Machines.success_rate := 80;
     Machines.successful := 60; Machines.failed := 15;
     Machines.avg_healing_time_minutes := Some (30 # 1);
     Machines.current_patients :=
       [ {| Machines.pokemon_name := "Bulbasaur";
            Machines.type_primary := "grass";
            Machines.type_secondary := Some "poison";
            Machines.arrived_at := "2024-01-15 09:05:00";
            Machines.initial_hp := 20; Machines.max_hp := 45;
            Machines.checkin_id := 9 |} ] |}.

(** A machine that has completed nothing yet. *)
Definition healer_c : Machines.Machine :=
  {| Machines.id := 3; Machines.name := "Healer C";
     Machines.model := "HM-2000"; Machines.location := "Ward 2";
     Machines.total_checkins := 0; Machines.success_rate := 0;
     Machines.successful := 0; Machines.failed := 0;
     Machines.avg_healing_time_minutes := None;
     Machines.current_patients := [] |}.

(** A plain machine object that carries one stray property. *)
Definition stray_delta : Machines.JsObject :=
  <["success_rate_delta" := Machines.VNull]> (Machines.machine_json healer_a).

End Samples.

(* ================================================================== *)
(** * Properties of the dismiss handler *)
(* ================================================================== *)

Section DismissFacts.
Import Js ActiveCheckins.
Context {R : Type}.
Variable fetchApi : Request -> Completion R.

Lemma click_dismiss_resolved s sel d :
  selectedCheckin s = Some sel ->
  fetchApi (dismiss_request sel (dismissOutcome s)) = Normal d ->
  click_dismiss fetchApi s =
    (Normal tt,
     {| ui := setDismissing false
                (setSelectedCheckin None
                   (setDismissDialogOpen false
                      (setCheckins (remove_dismissed sel)
                         (setDismissing true s))));
        sent := [dismiss_request sel (dismissOutcome s)] |}).
Proof.
  intros Hsel Hok. unfold click_dismiss, handleDismiss. rewrite Hsel.
  unfold bind, try_finally, try_catch, await_fetch, update. cbn.
  rewrite Hok. reflexivity.
Qed.

Lemma click_dismiss_rejected s sel err :
  selectedCheckin s = Some sel ->
  fetchApi (dismiss_request sel (dismissOutcome s)) = Abrupt err ->
  click_dismiss fetchApi s =
    (Normal tt,
     {| ui := setDismissing false
                (setError (Some (message_or "Failed to dismiss check-in" err))
                   (setDismissing true s));
        sent := [dismiss_request sel (dismissOutcome s)] |}).
Proof.
  intros Hsel Hko. unfold click_dismiss, handleDismiss. rewrite Hsel.
  unfold bind, try_finally, try_catch, await_fetch, update. cbn.
  rewrite Hko. reflexivity.
Qed.

End DismissFacts.

Section FilterFacts.
Import ActiveCheckins.

Lemma kept_iff (i : Z) (l : list ActiveCheckin) (c : ActiveCheckin) :
  In c (List.filter (fun c => negb (id c =? i)%Z) l) <-> In c l /\ id c <> i.
Proof.
  rewrite filter_In. split; intros [Hin Hne]; split; try assumption.
  - intros Heq. rewrite Heq, Z.eqb_refl in Hne. discriminate.
  - apply negb_true_iff, Z.eqb_neq. assumption.
Qed.

Lemma occurrences_removed (i : Z) (l : list ActiveCheckin) :
  occurrences i (List.filter (fun c => negb (id c =? i)%Z) l) = 0.
Proof.
  unfold occurrences. induction l as [|c l IH]; [reflexivity|].
  cbn. destruct (id c =? i)%Z eqn:E; cbn; [exact IH|].
  rewrite E. exact IH.
Qed.

Lemma length_kept (i : Z) (l : list ActiveCheckin) :
  length (List.filter (fun c => negb (id c =? i)%Z) l) + occurrences i l
  = length l.
Proof.
  unfold occurrences. induction l as [|c l IH]; [reflexivity|].
  cbn. destruct (id c =? i)%Z; cbn; lia.
Qed.

End FilterFacts.

Section DismissClaims.
Import Js ActiveCheckins.
Context {R : Type}.
Variable fetchApi : Request -> Completion R.

(** C1. With a check-in selected, a click on "Confirm Dismiss" sends the
    one POST request and nothing else (no refetch), and never throws.
    When the request succeeds, the local list is the old one without
    the entries carrying the selected id (all of them go, the others
    stay, in their order), the count goes down by exactly one, the
    dialog closes and the error is untouched.  When the
    request fails, list and count are as before and the only cell that
    changes is the error message. *)
Theorem handleDismiss_local_update (s : State) (sel : ActiveCheckin) :
  selectedCheckin s = Some sel ->
  fst (click_dismiss fetchApi s) = Normal tt /\
  sent (snd (click_dismiss fetchApi s)) = [dismiss_request sel (dismissOutcome s)] /\
  match fetchApi (dismiss_request sel (dismissOutcome s)) with
  | Normal _ =>
      (forall p, checkins s = Some p ->
         exists p', checkins (ui (snd (click_dismiss fetchApi s))) = Some p' /\
           active_checkins p' =
             List.filter (fun c => negb (id c =? id sel)%Z) (active_checkins p) /\
           (forall c, In c (active_checkins p') <->
                      In c (active_checkins p) /\ id c <> id sel) /\
           occurrences (id sel) (active_checkins p') = 0 /\
           count p' = (count p - 1)%Z) /\
      (checkins s = None -> checkins (ui (snd (click_dismiss fetchApi s))) = None) /\
      error (ui (snd (click_dismiss fetchApi s))) = error s /\
      dismissDialogOpen (ui (snd (click_dismiss fetchApi s))) = false /\
      selectedCheckin (ui (snd (click_dismiss fetchApi s))) = None /\
      dismissing (ui (snd (click_dismiss fetchApi s))) = false
  | Abrupt err =>
      ui (snd (click_dismiss fetchApi s)) =
        setDismissing false
          (setError (Some (message_or "Failed to dismiss check-in" err)) s) /\
      checkins (ui (snd (click_dismiss fetchApi s))) = checkins s /\
      error (ui (snd (click_dismiss fetchApi s))) =
        Some (message_or "Failed to dismiss check-in" err)
  end.
Proof.
  intros Hsel.
  destruct (fetchApi (dismiss_request sel (dismissOutcome s))) as [d|err] eqn:Hnet.
  - rewrite (click_dismiss_resolved fetchApi s sel d Hsel Hnet). cbn.
    repeat split; try reflexivity.
    + intros p Hp. rewrite Hp. cbn. eexists. split; [reflexivity|]. cbn.
      split; [reflexivity|]. split; [|split].
      * intros c. apply kept_iff.
      * apply occurrences_removed.
      * reflexivity.
    + intros Hnone. rewrite Hnone. reflexivity.
  - rewrite (click_dismiss_rejected fetchApi s sel err Hsel Hnet). cbn.
    repeat split; reflexivity.
Qed.

(** C8. After a successful dismiss the count is the old count minus one
    and the list is shorter by the number of entries carrying the
    selected id.  So, starting from count = length, the equality holds
    afterwards exactly when the selected id occurred once in the list:
    it is kept in that case and lost when the id occurred zero times or
    more than once. *)
Theorem handleDismiss_count_matches_iff_once
    (s : State) (sel : ActiveCheckin) (p : ActiveCheckinsResponse) (d : R) :
  selectedCheckin s = Some sel ->
  checkins s = Some p ->
  fetchApi (dismiss_request sel (dismissOutcome s)) = Normal d ->
  count p = Z.of_nat (length (active_checkins p)) ->
  exists p', checkins (ui (snd (click_dismiss fetchApi s))) = Some p' /\
    count p' = (count p - 1)%Z /\
    length (active_checkins p') + occurrences (id sel) (active_checkins p)
      = length (active_checkins p) /\
    (occurrences (id sel) (active_checkins p) = 1 ->
       count p' = Z.of_nat (length (active_checkins p'))) /\
    (occurrences (id sel) (active_checkins p) <> 1 ->
       count p' <> Z.of_nat (length (active_checkins p'))).
Proof.
  intros Hsel Hp Hnet Hinv.
  rewrite (click_dismiss_resolved fetchApi s sel d Hsel Hnet). cbn.
  rewrite Hp. cbn. eexists. split; [reflexivity|]. cbn.
  pose proof (length_kept (id sel) (active_checkins p)) as Hlen.
  repeat split.
  - exact Hlen.
  - intros Hone. lia.
  - intros Hnot. lia.
Qed.

End DismissClaims.

Lemma handleDismiss_local_update_witness :
  (let w := snd (ActiveCheckins.click_dismiss Samples.accepts Samples.two_patients) in
   Js.sent w = [ActiveCheckins.dismiss_request Samples.pikachu ActiveCheckins.success] /\
   ActiveCheckins.checkins (Js.ui w) =
     Some {| ActiveCheckins.active_checkins := [Samples.bulbasaur];
             ActiveCheckins.count := 1 |}) /\
  (let w := snd (ActiveCheckins.click_dismiss Samples.refuses Samples.two_patients) in
   ActiveCheckins.checkins (Js.ui w) =
     ActiveCheckins.checkins Samples.two_patients /\
   ActiveCheckins.error (Js.ui w) = Some "API error: 500").
Proof.
  pose proof (handleDismiss_local_update Samples.accepts Samples.two_patients
                Samples.pikachu eq_refl) as [_ [Hsent Hok]].
  pose proof (handleDismiss_local_update Samples.refuses Samples.two_patients
                Samples.pikachu eq_refl) as [_ [_ Hko]].
  cbn in Hok, Hko.
  destruct Hko as [_ [Hsame Herr]].
  split; [split|split].
  - exact Hsent.
  - reflexivity.
  - exact Hsame.
  - exact Herr.
Defined.

Lemma handleDismiss_count_matches_iff_once_witness :
  exists p',
    ActiveCheckins.checkins
      (Js.ui (snd (ActiveCheckins.click_dismiss Samples.accepts Samples.two_patients)))
      = Some p' /\
    ActiveCheckins.count p' = 1%Z /\
    length (ActiveCheckins.active_checkins p') = 1.
Proof.
  destruct (handleDismiss_count_matches_iff_once Samples.accepts
              Samples.two_patients Samples.pikachu
              {| ActiveCheckins.active_checkins := [Samples.pikachu; Samples.bulbasaur];
                 ActiveCheckins.count := 2 |} tt
              eq_refl eq_refl eq_refl eq_refl)
    as [p' [Hp' [Hcount [Hlen _]]]].
  exists p'. split; [exact Hp'|]. split; [exact Hcount|].
  cbn in Hlen. lia.
Defined.

Section DismissRequestFacts.
Import Js ActiveCheckins.
Context {R : Type}.
Variable fetchApi : Request -> Completion R.

Lemma click_dismiss_sent s sel :
  selectedCheckin s = Some sel ->
  sent (snd (click_dismiss fetchApi s)) = [dismiss_request sel (dismissOutcome s)].
Proof.
  intros Hsel.
  destruct (fetchApi (dismiss_request sel (dismissOutcome s))) as [d|err] eqn:Hnet.
  - rewrite (click_dismiss_resolved fetchApi s sel d Hsel Hnet). reflexivity.
  - rewrite (click_dismiss_rejected fetchApi s sel err Hsel Hnet). reflexivity.
Qed.

(** X18. The outcome of a dismiss is one of the two values [success]
    and [fail], preset to [success] whenever the dialog is opened.
    Confirming sends a single POST to
    [/checkins/dismiss/<id>?outcome=<value>] for the selected
    check-in, the value being the chosen one of the two, spelled
    "success" or "fail". *)
Theorem dismiss_request_outcome (s : State) (sel : ActiveCheckin) :
  selectedCheckin s = Some sel ->
  sent (snd (click_dismiss fetchApi s)) =
    [ {| url := "/checkins/dismiss/" +:+ to_string (id sel) +:+ "?outcome=" +:+
                outcome_text (dismissOutcome s);
         method := Some "POST"; body := None |} ] /\
  (outcome_text (dismissOutcome s) = "success" \/
   outcome_text (dismissOutcome s) = "fail") /\
  (forall o : DismissOutcome, o = success \/ o = fail) /\
  outcome_text success <> outcome_text fail /\
  (forall c s0, dismissOutcome (openDismissDialog c s0) = success /\
                selectedCheckin (openDismissDialog c s0) = Some c).
Proof.
  intros Hsel. split; [exact (click_dismiss_sent s sel Hsel)|].
  split; [destruct (dismissOutcome s); cbn; tauto|].
  split; [intros []; tauto|].
  split; [discriminate|].
  intros c s0. split; reflexivity.
Qed.

End DismissRequestFacts.

Lemma dismiss_request_outcome_witness :
  Js.sent (snd (ActiveCheckins.click_dismiss Samples.accepts Samples.stale_selection)) =
    [ {| Js.url := "/checkins/dismiss/7?outcome=fail";
         Js.method := Some "POST"; Js.body := None |} ].
Proof.
  destruct (dismiss_request_outcome Samples.accepts Samples.stale_selection
              Samples.pikachu eq_refl) as [Hsent _].
  rewrite Hsent. vm_compute. reflexivity.
Defined.

(** On the wire the outcome is spelled differently from the stored
    one: dismissing with the preset outcome sends [outcome=success],
    and neither value a request can carry reads "successful" or
    "failed". *)
Example dismiss_outcome_wire_spelling :
  Js.sent (snd (ActiveCheckins.click_dismiss Samples.accepts
                  (ActiveCheckins.openDismissDialog Samples.pikachu
                     Samples.two_patients))) =
    [ {| Js.url := "/checkins/dismiss/7?outcome=success";
         Js.method := Some "POST"; Js.body := None |} ] /\
  ~ In (ActiveCheckins.outcome_text ActiveCheckins.success) ["successful"; "failed"] /\
  ~ In (ActiveCheckins.outcome_text ActiveCheckins.fail) ["successful"; "failed"].
Proof.
  split; [vm_compute; reflexivity|].
  split; cbn; intros [H|[H|[]]]; discriminate.
Qed.

(** The count and the list drift apart when the selected check-in is
    not listed (the count drops to 0 while the one entry stays) and
    when it is listed twice (both entries go, the count drops by one). *)
Example dismiss_breaks_count :
  ActiveCheckins.checkins
    (Js.ui (snd (ActiveCheckins.click_dismiss Samples.accepts Samples.stale_selection)))
  = Some {| ActiveCheckins.active_checkins := [Samples.bulbasaur];
            ActiveCheckins.count := 0 |} /\
  ActiveCheckins.checkins
    (Js.ui (snd (ActiveCheckins.click_dismiss Samples.accepts Samples.listed_twice)))
  = Some {| ActiveCheckins.active_checkins := [Samples.bulbasaur];
            ActiveCheckins.count := 2 |}.
Proof. split; reflexivity. Qed.

(** Without a selected check-in the handler returns at once: nothing
    is sent and no cell changes. *)
Example dismiss_without_selection (s : ActiveCheckins.State) :
  ActiveCheckins.selectedCheckin s = None ->
  ActiveCheckins.click_dismiss Samples.accepts s =
    (Js.Normal tt, {| Js.ui := s; Js.sent := [] |}).
Proof.
  intros Hnone. unfold ActiveCheckins.click_dismiss, ActiveCheckins.handleDismiss.
  rewrite Hnone. reflexivity.
Qed.

(* ================================================================== *)
(** * Properties of the data hooks *)
(* ================================================================== *)

Section HookFacts.
Import Js.
Context {T P : Type}.
Variable fetchApi : Request -> Completion T.
Variable truthy : P -> bool.
Variable JSON_stringify : P -> Completion string.
Variable endpoint : string.
Variable method : UseMutation.Method.

Lemma message_or_Error fallback msg :
  message_or fallback (ErrorObject msg) = msg.
Proof. reflexivity. Qed.

Lemma fetchData_run (w : World (UseApi.UseApiState T)) :
  UseApi.fetchData fetchApi endpoint w =
    (Normal tt,
     {| ui := match fetchApi (get endpoint) with
              | Normal d =>
                  {| UseApi.data := Some d; UseApi.loading := false;
                     UseApi.error := None |}
              | Abrupt err =>
                  {| UseApi.data := None; UseApi.loading := false;
                     UseApi.error := Some (message_or "An error occurred" err) |}
              end;
        sent := sent w ++ [get endpoint] |}).
Proof.
  unfold UseApi.fetchData, bind, try_catch, await_fetch, update. cbn.
  destruct (fetchApi (get endpoint)); reflexivity.
Qed.

(** C9. Neither hook lets a failure of [fetchApi] escape.  [fetchData]
    of [useApi] always completes normally; after a failure the state is
    data = null, loading = false and error = the message of the thrown
    [Error] (or the fixed text "An error occurred" when something else
    was thrown), after a success it is the parsed response, loading =
    false, error = null.  [mutate] of [useMutation] always resolves: to
    the parsed response with error = null on success, to null with
    error set to the failure message otherwise (the same when
    [JSON.stringify] throws before the request is sent); loading is
    false afterwards in every case. *)
Theorem hooks_contain_fetch_failures
    (params : option P)
    (w1 : World (UseApi.UseApiState T)) (w2 : World UseMutation.MutationState) :
  (fst (UseApi.fetchData fetchApi endpoint w1) = Normal tt /\
   match fetchApi (get endpoint) with
   | Normal d =>
       ui (snd (UseApi.fetchData fetchApi endpoint w1)) =
         {| UseApi.data := Some d; UseApi.loading := false;
            UseApi.error := None |}
   | Abrupt err =>
       ui (snd (UseApi.fetchData fetchApi endpoint w1)) =
         {| UseApi.data := None; UseApi.loading := false;
            UseApi.error := Some (message_or "An error occurred" err) |} /\
       UseApi.error (ui (snd (UseApi.fetchData fetchApi endpoint w1))) <> None /\
       (forall msg, err = ErrorObject msg ->
          UseApi.error (ui (snd (UseApi.fetchData fetchApi endpoint w1))) = Some msg)
   end) /\
  (let run := UseMutation.mutate fetchApi truthy JSON_stringify endpoint method params w2 in
   match UseMutation.request_body truthy JSON_stringify params with
   | Normal b =>
       match fetchApi (mkRequest endpoint (Some (UseMutation.method_text method)) b) with
       | Normal d =>
           fst run = Normal (Some d) /\
           ui (snd run) = {| UseMutation.loading := false; UseMutation.error := None |}
       | Abrupt err =>
           fst run = Normal None /\
           ui (snd run) =
             {| UseMutation.loading := false;
                UseMutation.error := Some (message_or "An error occurred" err) |} /\
           (forall msg, err = ErrorObject msg ->
              UseMutation.error (ui (snd run)) = Some msg)
       end
   | Abrupt err =>
       fst run = Normal None /\
       ui (snd run) =
         {| UseMutation.loading := false;
            UseMutation.error := Some (message_or "An error occurred" err) |} /\
       sent (snd run) = sent w2
   end).
Proof.
  split.
  - rewrite fetchData_run. cbn. split; [reflexivity|].
    destruct (fetchApi (get endpoint)) as [d|err]; [reflexivity|].
    split; [reflexivity|]. split; [discriminate|].
    intros msg ->. reflexivity.
  - cbv zeta. unfold UseMutation.mutate, bind, try_catch, await_fetch, update, lift, ret.
    cbn. destruct (UseMutation.request_body truthy JSON_stringify params) as [b|err]; cbn.
    + destruct (fetchApi _) as [d|err]; cbn.
      * split; reflexivity.
      * split; [reflexivity|]. split; [reflexivity|]. intros msg ->. reflexivity.
    + repeat split; reflexivity.
Qed.

End HookFacts.

(* ================================================================== *)
(** * Properties of the treatment-time label *)
(* ================================================================== *)

Section TreatmentTimeFacts.
Import Js ActiveCheckins.
Local Open Scope Q_scope.

Lemma trunc_nonneg (x : Q) : 0 <= x -> trunc x = Qfloor x.
Proof.
  intros Hx. unfold trunc.
  destruct (Qle_bool 0 x) eqn:E; [reflexivity|].
  apply Qle_bool_iff in Hx. congruence.
Qed.

Lemma quotient_nonneg (m : Q) : 0 <= m -> 0 <= m / 60.
Proof. intros Hm. apply Qle_shift_div_l; lra. Qed.

Lemma floor_bounds (m : Q) :
  60 * inject_Z (Qfloor (m / 60)) <= m /\
  m < 60 * inject_Z (Qfloor (m / 60)) + 60.
Proof.
  pose proof (Qfloor_le (m / 60)) as Hlo.
  pose proof (Qlt_floor (m / 60)) as Hhi.
  rewrite inject_Z_plus in Hhi. change (inject_Z 1) with 1 in Hhi.
  assert (Hm : m == 60 * (m / 60)) by (field).
  split; lra.
Qed.

Lemma rem_60_nonneg (m : Q) :
  0 <= m -> rem m 60 == m - 60 * inject_Z (Qfloor (m / 60)).
Proof.
  intros Hm. unfold rem. rewrite (trunc_nonneg (m / 60) (quotient_nonneg m Hm)).
  reflexivity.
Qed.

Lemma round_range (r : Q) : 0 <= r -> r < 60 -> (0 <= Math_round r <= 60)%Z.
Proof.
  intros Hlo Hhi. unfold Math_round. split.
  - change 0%Z with (Qfloor 0). apply Qfloor_resp_le. lra.
  - change 60%Z with (Qfloor (121 # 2)). apply Qfloor_resp_le. lra.
Qed.

(** C10. For a non-negative number of minutes the label is
    "<round(minutes)> min" below 60 and
    "<floor(minutes / 60)>h <round(minutes % 60)>m" from 60 on.  In the
    second case the hours are the floor of the quotient (at least 1),
    [minutes % 60] is what is left after taking the whole hours out, it
    lies in [0, 60), and the minutes shown are its rounding, a whole
    number between 0 and 60. *)
Theorem formatTreatmentTime_cases (minutes : Q) :
  0 <= minutes ->
  (minutes < 60 ->
     formatTreatmentTime minutes = to_string (Math_round minutes) +:+ " min") /\
  (60 <= minutes ->
     formatTreatmentTime minutes =
       to_string (Math_floor (minutes / 60)) +:+ "h " +:+
       to_string (Math_round (rem minutes 60)) +:+ "m" /\
     rem minutes 60 == minutes - 60 * inject_Z (Math_floor (minutes / 60)) /\
     0 <= rem minutes 60 < 60 /\
     (1 <= Math_floor (minutes / 60))%Z /\
     (0 <= Math_round (rem minutes 60) <= 60)%Z).
Proof.
  intros Hnonneg. split.
  - intros Hlt. unfold formatTreatmentTime.
    destruct (Qlt_le_dec minutes 60) as [_|Hge]; [reflexivity|]. lra.
  - intros Hge.
    pose proof (rem_60_nonneg minutes Hnonneg) as Hrem.
    pose proof (floor_bounds minutes) as [Hlo Hhi].
    assert (Hrange : 0 <= rem minutes 60 < 60) by (rewrite Hrem; split; lra).
    split; [|split; [|split; [|split]]].
    + unfold formatTreatmentTime.
      destruct (Qlt_le_dec minutes 60) as [Hlt|_]; [lra|reflexivity].
    + exact Hrem.
    + exact Hrange.
    + unfold Math_floor. change 1%Z with (Qfloor 1).
      apply Qfloor_resp_le. apply Qle_shift_div_l; lra.
    + apply round_range; apply Hrange.
Qed.

End TreatmentTimeFacts.

Lemma formatTreatmentTime_cases_witness :
  ActiveCheckins.formatTreatmentTime (127 # 1) = "2h 7m" /\
  ActiveCheckins.formatTreatmentTime (85 # 2) = "43 min".
Proof.
  split.
  - destruct (formatTreatmentTime_cases (127 # 1)) as [_ Hlong].
    + unfold Qle. simpl. lia.
    + destruct Hlong as [Heq _].
      * unfold Qle. simpl. lia.
      * rewrite Heq. vm_compute. reflexivity.
  - destruct (formatTreatmentTime_cases (85 # 2)) as [Hshort _].
    + unfold Qle. simpl. lia.
    + rewrite Hshort.
      * vm_compute. reflexivity.
      * unfold Qlt. simpl. lia.
Defined.

(* ================================================================== *)
(** * Properties of the machines table *)
(* ================================================================== *)

Section MachineViewFacts.
Import Machines.

Lemma isCompareMachine_presence (m : JsObject) :
  isCompareMachine m = true <-> is_Some (m !! "success_rate_delta").
Proof.
  unfold isCompareMachine. destruct (m !! "success_rate_delta") as [v|].
  - split; [eauto|reflexivity].
  - split; [discriminate|]. intros [v Hv]. discriminate.
Qed.

Lemma machine_json_no_delta (s : Machine) :
  machine_json s !! "success_rate_delta" = None.
Proof.
  unfold machine_json. rewrite !lookup_insert_ne by discriminate.
  apply lookup_empty.
Qed.

Lemma compare_json_delta (e : CompareMachine) :
  compare_json e !! "success_rate_delta" = Some (VNum (success_rate_delta e)).
Proof. unfold compare_json. apply lookup_insert_eq. Qed.

Lemma isCompareMachine_view (v : MachineView) :
  isCompareMachine (view_json v) = is_compared v.
Proof.
  destruct v as [s|e]; unfold isCompareMachine; cbn.
  - rewrite machine_json_no_delta. reflexivity.
  - rewrite compare_json_delta. reflexivity.
Qed.

(** C2 (as the code has it). The table keeps the untagged union
    [Machine | CompareMachine] and tells the two apart by the presence
    of the property [success_rate_delta] alone; on the objects that
    stand for a plain summary or for a comparison entry this test
    gives the tag of the variant. *)
Theorem isCompareMachine_is_field_presence :
  (forall m : JsObject,
     isCompareMachine m = true <-> is_Some (m !! "success_rate_delta")) /\
  (forall v : MachineView, isCompareMachine (view_json v) = is_compared v).
Proof.
  split.
  - exact isCompareMachine_presence.
  - exact isCompareMachine_view.
Qed.

End MachineViewFacts.

(** C2 (as stated) fails: a plain machine object with one stray
    [success_rate_delta] property, holding null, is taken for a
    comparison entry although it has none of the other comparison
    fields; without that one property it is the plain summary. *)
Lemma isCompareMachine_duck_typed :
  Machines.isCompareMachine Samples.stray_delta = true /\
  Machines.has_compare_fields Samples.stray_delta = false /\
  Samples.stray_delta !! "is_baseline" = None /\
  delete "success_rate_delta" Samples.stray_delta
    = Machines.view_json (Machines.Plain Samples.healer_a) /\
  Machines.isCompareMachine (Machines.view_json (Machines.Plain Samples.healer_a))
    = false.
Proof.
  unfold Samples.stray_delta.
  split; [|split; [|split; [|split]]].
  - unfold Machines.isCompareMachine. rewrite lookup_insert_eq. reflexivity.
  - unfold Machines.has_compare_fields. cbn.
    rewrite lookup_insert_eq.
    rewrite (lookup_insert_ne _ "success_rate_delta" "checkins_delta") by discriminate.
    unfold Machines.machine_json.
    rewrite !lookup_insert_ne by discriminate. rewrite lookup_empty.
    rewrite bool_decide_eq_true_2 by eauto.
    rewrite bool_decide_eq_false_2; [reflexivity|].
    intros [v Hv]. discriminate.
  - rewrite lookup_insert_ne by discriminate.
    unfold Machines.machine_json.
    rewrite !lookup_insert_ne by discriminate. apply lookup_empty.
  - rewrite delete_insert_eq. apply delete_id, machine_json_no_delta.
  - apply (isCompareMachine_view (Machines.Plain Samples.healer_a)).
Qed.

(* ================================================================== *)
(** * Properties of the metrics core *)
(* ================================================================== *)

Section RateFacts.
Import Core.
Local Open Scope Q_scope.

Lemma divide_nonzero (a b : Q) : ~ b == 0 -> divide a b = inr (a / b).
Proof.
  intros Hb. unfold divide. destruct (Qeq_bool b 0) eqn:E; [|reflexivity].
  apply Qeq_bool_iff in E. contradiction.
Qed.

Lemma inject_Z_nonzero (z : Z) : z <> 0%Z -> ~ inject_Z z == 0.
Proof. intros Hz. unfold Qeq. simpl. lia. Qed.

Lemma successful_le_completed (cs : list Checkin) :
  (0 <= count_where is_successful cs <= count_where is_completed cs)%Z.
Proof.
  unfold count_where. split; [lia|]. apply inj_le.
  induction cs as [|c cs IH]; [reflexivity|].
  cbn. unfold is_successful at 1.
  destruct (is_completed c); cbn; [destruct (match outcome c with Some successful => true | _ => false end); cbn; lia | lia].
Qed.

Lemma round1_bounds (x : Q) : 0 <= x -> x <= 100 -> 0 <= round1 x <= 100.
Proof.
  intros Hlo Hhi. unfold round1.
  assert (H0 : (0 <= Qfloor (x * 10 + (1 # 2)))%Z).
  { change 0%Z with (Qfloor 0). apply Qfloor_resp_le. lra. }
  assert (H1 : (Qfloor (x * 10 + (1 # 2)) <= 1000)%Z).
  { change 1000%Z with (Qfloor (2001 # 2)). apply Qfloor_resp_le. lra. }
  set (n := Qfloor (x * 10 + (1 # 2))) in *.
  unfold Qle. simpl. lia.
Qed.

Lemma round1_close (x : Q) : Qabs (round1 x - x) <= 1 # 20.
Proof.
  unfold round1.
  pose proof (Qfloor_le (x * 10 + (1 # 2))) as Hlo.
  pose proof (Qlt_floor (x * 10 + (1 # 2))) as Hhi.
  rewrite inject_Z_plus in Hhi. change (inject_Z 1) with 1 in Hhi.
  rewrite (Qmake_Qdiv (Qfloor (x * 10 + (1 # 2))) 10).
  set (n := inject_Z (Qfloor (x * 10 + (1 # 2)))) in *.
  change (inject_Z (Z.pos 10)) with 10.
  apply Qabs_Qle_condition. split.
  - assert (H : n / 10 == n * (1 # 10)) by field. rewrite H. lra.
  - assert (H : n / 10 == n * (1 # 10)) by field. rewrite H. lra.
Qed.

Lemma round1_one_decimal (x : Q) : one_decimal x -> round1 x == x.
Proof.
  intros [n Hn]. unfold round1.
  assert (Hfloor : Qfloor (x * 10 + (1 # 2)) = n).
  { assert (Hx : x * 10 + (1 # 2) == inject_Z n + (1 # 2)).
    { rewrite Hn. rewrite (Qmake_Qdiv n 10). change (inject_Z (Z.pos 10)) with 10. field. }
    rewrite (Qfloor_comp _ _ Hx).
    pose proof (Qfloor_le (inject_Z n + (1 # 2))) as Hlo.
    pose proof (Qlt_floor (inject_Z n + (1 # 2))) as Hhi.
    set (k := Qfloor (inject_Z n + (1 # 2))) in *.
    assert (Hk1 : inject_Z k < inject_Z (n + 1)).
    { rewrite inject_Z_plus. change (inject_Z 1) with 1. lra. }
    assert (Hk2 : inject_Z n < inject_Z (k + 1)) by lra.
    rewrite <- Zlt_Qlt in Hk1, Hk2. lia. }
  rewrite Hfloor. symmetry. exact Hn.
Qed.

Lemma success_rate_total (cs : list Checkin) :
  exists r, success_rate cs = inr r /\ 0 <= r <= 100 /\
            (count_where is_completed cs = 0%Z -> r = 0).
Proof.
  unfold success_rate.
  pose proof (successful_le_completed cs) as [Hlo Hhi].
  destruct (count_where is_completed cs =? 0)%Z eqn:E.
  - exists 0. split; [reflexivity|]. split; [split; lra|]. reflexivity.
  - apply Z.eqb_neq in E.
    rewrite divide_nonzero by (apply inject_Z_nonzero; exact E). cbn.
    eexists. split; [reflexivity|]. split.
    + assert (Hpos : 0 < inject_Z (count_where is_completed cs)).
      { change 0 with (inject_Z 0). rewrite <- Zlt_Qlt. lia. }
      apply round1_bounds.
      * apply Qmult_le_0_compat; [|lra].
        apply Qle_shift_div_l; [exact Hpos|].
        rewrite Qmult_0_l. change 0 with (inject_Z 0). rewrite <- Zle_Qle. exact Hlo.
      * assert (Hratio : inject_Z (count_where is_successful cs) /
                         inject_Z (count_where is_completed cs) <= 1).
        { apply Qle_shift_div_r; [exact Hpos|].
          rewrite Qmult_1_l. rewrite <- Zle_Qle. exact Hhi. }
        lra.
    + intros Hzero. contradiction.
Qed.

Lemma avg_healing_time_total (cs : list Checkin) :
  exists a, avg_healing_time cs = inr a /\
    (a = None <-> count_where is_completed cs = 0%Z).
Proof.
  unfold avg_healing_time, count_where.
  destruct (Z.of_nat (length (List.filter is_completed cs)) =? 0)%Z eqn:E.
  - exists None. split; [reflexivity|]. apply Z.eqb_eq in E. tauto.
  - apply Z.eqb_neq in E.
    rewrite divide_nonzero by (apply inject_Z_nonzero; exact E). cbn.
    eexists. split; [reflexivity|]. split; [discriminate|]. intros H. contradiction.
Qed.

Lemma entry_for_rate (e : Entity) (mine : list Checkin) :
  exists entry, entry_for e mine = inr entry /\ 0 <= rate entry <= 100 /\
    (count_where is_completed mine = 0%Z -> rate entry = 0).
Proof.
  unfold entry_for. destruct (success_rate_total mine) as [r [Hr Hrange]].
  rewrite Hr. cbn. eexists. split; [reflexivity|]. exact Hrange.
Qed.

(** C5. Whatever the check-ins, the success rate is computed without a
    fault, lies between 0 and 100, and is 0 when no check-in is
    completed; the same holds of the rate a leaderboard entry carries.
    The average healing time, the other quotient of the core, is
    computed without a fault as well (it is absent exactly when no
    check-in is completed).  No computation of either ends in a
    division by zero. *)
Theorem success_rate_in_range (cs : list Checkin) :
  (exists r, success_rate cs = inr r /\ 0 <= r <= 100 /\
             (count_where is_completed cs = 0%Z -> r = 0)) /\
  (forall e, exists entry, entry_for e cs = inr entry /\
             0 <= rate entry <= 100 /\
             (count_where is_completed cs = 0%Z -> rate entry = 0)) /\
  (exists a, avg_healing_time cs = inr a /\
             (a = None <-> count_where is_completed cs = 0%Z)) /\
  success_rate cs <> inl DivideByZero /\
  avg_healing_time cs <> inl DivideByZero.
Proof.
  pose proof (success_rate_total cs) as [r [Hr Hrange]].
  pose proof (avg_healing_time_total cs) as [a [Ha Hnone]].
  split; [exists r; split; assumption|].
  split; [intros e; apply entry_for_rate|].
  split; [exists a; split; assumption|].
  split; [rewrite Hr|rewrite Ha]; discriminate.
Qed.

End RateFacts.

Section ValidationFacts.
Import Core.

Lemma parse_segment_by_unrecognized (text : string) :
  ~ In text segment_by_values ->
  parse_segment_by (Some text) =
    inl (InvalidInput ("segment_by must be none, type or subject, got " +:+ text)).
Proof.
  intros Hout. unfold parse_segment_by.
  destruct (String.eqb_spec text "none") as [->|_]; [exfalso; apply Hout; cbn; tauto|].
  destruct (String.eqb_spec text "type") as [->|_]; [exfalso; apply Hout; cbn; tauto|].
  destruct (String.eqb_spec text "subject") as [->|_]; [exfalso; apply Hout; cbn; tauto|].
  reflexivity.
Qed.

Lemma parse_segment_by_recognized (text : string) (v : SegmentBy) :
  parse_segment_by (Some text) = inr v <->
  (text = "none" /\ v = seg_none) \/
  (text = "type" /\ v = seg_type) \/
  (text = "subject" /\ v = seg_subject).
Proof.
  unfold parse_segment_by. split.
  - destruct (String.eqb_spec text "none") as [->|_]; [intros [= <-]; tauto|].
    destruct (String.eqb_spec text "type") as [->|_]; [intros [= <-]; tauto|].
    destruct (String.eqb_spec text "subject") as [->|_]; [intros [= <-]; tauto|].
    discriminate.
  - intros [[-> ->]|[[-> ->]|[-> ->]]]; reflexivity.
Qed.

Section TrendFacts.
Context {Series : Type}.
Variable engine :
  GroupBy -> SegmentBy -> option string -> option string ->
  list Checkin -> Series.

Lemma trend_rejects_segment_by (q : TrendQuery) (rows : list Checkin) (text : string) :
  segment_by q = Some text -> ~ In text segment_by_values ->
  exists what, trend engine q rows = inl (InvalidInput what).
Proof.
  intros Hq Hout. unfold trend.
  destruct (parse_group_by (group_by q)) as [e|g] eqn:Hg; cbn.
  - unfold parse_group_by in Hg. destruct (group_by q) as [t|]; [|discriminate].
    destruct (String.eqb t "day"); [discriminate|].
    destruct (String.eqb t "hour"); [discriminate|].
    injection Hg as <-. eauto.
  - rewrite Hq, (parse_segment_by_unrecognized text Hout). cbn. eauto.
Qed.

Lemma trend_answer_uses_options (q : TrendQuery) (rows : list Checkin) (series : Series) :
  trend engine q rows = inr series ->
  exists g sg,
    parse_group_by (group_by q) = inr g /\
    parse_segment_by (segment_by q) = inr sg /\
    series = engine g sg (start_date q) (end_date q) rows.
Proof.
  unfold trend. intros H.
  destruct (parse_group_by (group_by q)) as [e|g]; [discriminate|]. cbn in H.
  destruct (parse_segment_by (segment_by q)) as [e|sg]; [discriminate|]. cbn in H.
  injection H as <-. eauto.
Qed.

(** C3. [segment_by] is recognized in exactly three spellings, none,
    type and subject, and defaults to none when absent.  Any other
    value is a validation failure whose description quotes it; a trend
    request carrying such a value is rejected whatever its other
    options and whatever the rows, and an answer, when there is one,
    is computed from the segmentation the request named (nothing is
    coerced on the way). *)
Theorem segment_by_is_validated :
  parse_segment_by None = inr seg_none /\
  (forall text v,
     parse_segment_by (Some text) = inr v <->
     (text = "none" /\ v = seg_none) \/
     (text = "type" /\ v = seg_type) \/
     (text = "subject" /\ v = seg_subject)) /\
  (forall text,
     ~ In text segment_by_values ->
     parse_segment_by (Some text) =
       inl (InvalidInput
              ("segment_by must be none, type or subject, got " +:+ text))) /\
  (forall q rows text,
     segment_by q = Some text -> ~ In text segment_by_values ->
     exists what, trend engine q rows = inl (InvalidInput what)) /\
  (forall q rows series,
     trend engine q rows = inr series ->
     exists g sg,
       parse_group_by (group_by q) = inr g /\
       parse_segment_by (segment_by q) = inr sg /\
       series = engine g sg (start_date q) (end_date q) rows).
Proof.
  split; [reflexivity|].
  split; [exact parse_segment_by_recognized|].
  split; [exact parse_segment_by_unrecognized|].
  split; [exact trend_rejects_segment_by|exact trend_answer_uses_options].
Qed.

End TrendFacts.

Lemma length_place (e : LeaderboardEntry) (ranked : list LeaderboardEntry) :
  length (place e ranked) = S (length ranked).
Proof.
  induction ranked as [|r rest IH]; [reflexivity|].
  cbn. destruct (ranks_before e r); cbn; [reflexivity|]. rewrite IH. reflexivity.
Qed.

Lemma length_rank (es : list LeaderboardEntry) : length (rank es) = length es.
Proof.
  unfold rank. induction es as [|e es IH]; [reflexivity|].
  cbn. rewrite length_place, IH. reflexivity.
Qed.

Lemma for_each_total {A B} (f : A -> CoreError + B) (l : list A) :
  (forall a, exists b, f a = inr b) ->
  exists bs, for_each f l = inr bs /\ length bs = length l.
Proof.
  intros Hf. induction l as [|a l [bs [Hbs Hlen]]].
  - exists []. split; reflexivity.
  - destruct (Hf a) as [b Hb]. exists (b :: bs). cbn.
    rewrite Hb. cbn. rewrite Hbs. cbn. split; [reflexivity|]. rewrite Hlen. reflexivity.
Qed.

Lemma entry_for_total (e : Entity) (mine : list Checkin) :
  exists entry, entry_for e mine = inr entry.
Proof. destruct (entry_for_rate e mine) as [entry [H _]]. eauto. Qed.

Lemma rank_subjects_total (n : nat) subjects rows :
  exists ss, rank_subjects n subjects rows = inr ss /\
             length ss = Nat.min n (length subjects).
Proof.
  unfold rank_subjects.
  destruct (for_each_total
              (fun s => entry_for (SubjectEntity (subject_key s) (name s))
                 (List.filter (fun c => (subject_id c =? subject_key s)%Z) rows))
              subjects) as [es [Hes Hlen]].
  { intros s. apply entry_for_total. }
  rewrite Hes. cbn. eexists. split; [reflexivity|].
  rewrite length_take, length_rank, Hlen. reflexivity.
Qed.

Lemma rank_categories_total (n : nat) subjects rows :
  exists ts, rank_categories n subjects rows = inr ts /\ length ts <= n.
Proof.
  unfold rank_categories.
  destruct (for_each_total
              (fun t => entry_for (CategoryEntity t)
                 (List.filter
                    (fun c => match category_of subjects c with
                              | Some t' => String.eqb t' t
                              | None => false
                              end) rows))
              (remove_dups (map type_primary subjects))) as [es [Hes Hlen]].
  { intros t. apply entry_for_total. }
  rewrite Hes. cbn. eexists. split; [reflexivity|].
  rewrite length_take. lia.
Qed.

(** C7. The limit of a leaderboard request is 5 when the caller gives
    none, and a request without a limit is answered as the request
    with limit 5.  Any limit of at least 1 is taken as given: the
    request is answered, with the first N of the subject ranking (all
    of it when there are fewer subjects) and at most N categories.  A
    limit below 1 is a validation failure and nothing is ranked; in
    particular the request with limit 0 is rejected. *)
Theorem leaderboard_limit_is_validated :
  validate_limit None = inr 5%Z /\
  (forall subjects rows,
     leaderboards None subjects rows = leaderboards (Some 5%Z) subjects rows) /\
  (forall n subjects rows,
     (1 <= n)%Z ->
     exists board,
       leaderboards (Some n) subjects rows = inr board /\
       length (top_subjects board) = Nat.min (Z.to_nat n) (length subjects) /\
       length (top_categories board) <= Z.to_nat n) /\
  (forall n subjects rows,
     (n < 1)%Z ->
     leaderboards (Some n) subjects rows =
       inl (InvalidInput ("limit must be at least 1, got " +:+ pretty n))) /\
  (forall subjects rows,
     leaderboards (Some 0%Z) subjects rows =
       inl (InvalidInput "limit must be at least 1, got 0")).
Proof.
  split; [reflexivity|]. split; [reflexivity|]. split; [|split].
  - intros n subjects rows Hn. unfold leaderboards, validate_limit.
    destruct (n <? 1)%Z eqn:E; [apply Z.ltb_lt in E; lia|]. cbn.
    destruct (rank_subjects_total (Z.to_nat n) subjects rows) as [ss [Hss Hlen]].
    destruct (rank_categories_total (Z.to_nat n) subjects rows) as [ts [Hts Hle]].
    rewrite Hss. cbn. rewrite Hts. cbn.
    eexists. split; [reflexivity|]. cbn. split; assumption.
  - intros n subjects rows Hn. unfold leaderboards, validate_limit.
    destruct (n <? 1)%Z eqn:E; [reflexivity|]. apply Z.ltb_ge in E. lia.
  - intros subjects rows. reflexivity.
Qed.

End ValidationFacts.

Section LifecycleFacts.
Import Core.

Lemma dismiss_row_outcome (now : Z) (o : Outcome) (c : Checkin) :
  (is_completed c = false -> outcome c = None) ->
  (is_completed c = true -> exists o', outcome c = Some o') ->
  (is_completed (dismiss_row now o c) = false ->
     outcome (dismiss_row now o c) = None) /\
  (is_completed (dismiss_row now o c) = true ->
     exists o', outcome (dismiss_row now o c) = Some o').
Proof.
  intros Hactive Hdone. unfold dismiss_row.
  destruct (is_completed c) eqn:E.
  - rewrite E. split; [discriminate|]. intros _. apply Hdone. reflexivity.
  - cbn. split; [discriminate|]. intros _. eauto.
Qed.

Lemma apply_event_outcome (rows : list Checkin) (ev : Event) :
  (forall c, In c rows ->
     (is_completed c = false -> outcome c = None) /\
     (is_completed c = true -> exists o, outcome c = Some o)) ->
  forall c, In c (apply_event rows ev) ->
    (is_completed c = false -> outcome c = None) /\
    (is_completed c = true -> exists o, outcome c = Some o).
Proof.
  intros Hrows c Hc. destruct ev as [key subject machine now hp hp_max|key now o]; cbn in Hc.
  - apply in_app_iff in Hc as [Hc|[<-|[]]]; [apply Hrows; exact Hc|].
    cbn. split; [reflexivity|discriminate].
  - apply in_map_iff in Hc as [c0 [<- Hc0]].
    destruct (Hrows c0 Hc0) as [Hactive Hdone].
    destruct (id c0 =? key)%Z; [|split; assumption].
    apply dismiss_row_outcome; assumption.
Qed.

Lemma replay_outcome (history : list Event) (c : Checkin) :
  In c (replay history) ->
  (is_completed c = false -> outcome c = None) /\
  (is_completed c = true -> exists o, outcome c = Some o).
Proof.
  unfold replay.
  assert (Hgen : forall rows,
    (forall c, In c rows ->
       (is_completed c = false -> outcome c = None) /\
       (is_completed c = true -> exists o, outcome c = Some o)) ->
    forall c, In c (fold_left apply_event history rows) ->
      (is_completed c = false -> outcome c = None) /\
      (is_completed c = true -> exists o, outcome c = Some o)).
  { induction history as [|ev rest IH]; intros rows Hrows; [exact Hrows|].
    cbn. apply IH. apply apply_event_outcome. exact Hrows. }
  apply Hgen. intros c0 [].
Qed.

(** C4. An outcome is one of the two values successful and failed.  In
    every store that arrivals and dismissals produce, an active
    check-in (no completion timestamp) has no outcome and a completed
    one has an outcome, successful or failed.  Dismissing an active
    check-in sets its completion timestamp and its outcome together,
    to the time and the value given, and touches nothing else of the
    row; in the store, the row the dismiss names is the one updated.
    A completed check-in is not changed by a further dismiss. *)
Theorem dismiss_sets_timestamp_and_outcome :
  (forall o : Outcome, o = successful \/ o = failed) /\
  successful <> failed /\
  (forall history c, In c (replay history) ->
     (healed_at c = None -> outcome c = None) /\
     (healed_at c <> None ->
        outcome c = Some successful \/ outcome c = Some failed)) /\
  (forall now o c, healed_at c = None ->
     healed_at (dismiss_row now o c) = Some now /\
     outcome (dismiss_row now o c) = Some o /\
     id (dismiss_row now o c) = id c /\
     subject_id (dismiss_row now o c) = subject_id c /\
     machine_id (dismiss_row now o c) = machine_id c /\
     arrived_at (dismiss_row now o c) = arrived_at c /\
     initial_hp (dismiss_row now o c) = initial_hp c /\
     max_hp (dismiss_row now o c) = max_hp c) /\
  (forall rows key now o c, In c rows -> id c = key ->
     In (dismiss_row now o c) (apply_event rows (Dismissal key now o))) /\
  (forall rows key now o c, In c rows -> id c <> key ->
     In c (apply_event rows (Dismissal key now o))) /\
  (forall now o c, healed_at c <> None -> dismiss_row now o c = c).
Proof.
  split; [intros []; tauto|]. split; [discriminate|].
  split; [|split; [|split; [|split]]].
  - intros history c Hc. destruct (replay_outcome history c Hc) as [Hactive Hdone].
    unfold is_completed in Hactive, Hdone. destruct (healed_at c) as [h|].
    + split; [discriminate|]. intros _.
      destruct (Hdone eq_refl) as [[|] ->]; tauto.
    + split; [intros _; apply Hactive; reflexivity|]. intros H. contradiction.
  - intros now o c Hactive. unfold dismiss_row, is_completed. rewrite Hactive.
    cbn. repeat split; reflexivity.
  - intros rows key now o c Hc Hkey. cbn. apply in_map_iff. exists c.
    split; [|exact Hc]. apply Z.eqb_eq in Hkey. rewrite Hkey. reflexivity.
  - intros rows key now o c Hc Hkey. cbn. apply in_map_iff. exists c.
    split; [|exact Hc]. apply Z.eqb_neq in Hkey. rewrite Hkey. reflexivity.
  - intros now o c Hdone. unfold dismiss_row, is_completed.
    destruct (healed_at c); [reflexivity|contradiction].
Qed.

(** Two arrivals, then the first patient dismissed as healed. *)
Example replay_scenario :
  replay [Arrival 1 25 1 0 12 35; Arrival 2 1 2 60 20 45;
          Dismissal 1 600 successful; Dismissal 1 900 failed]
  = [ mkCheckin 1 25 1 0 (Some 600%Z) (Some successful) 12 35;
      mkCheckin 2 1 2 60 None None 20 45 ].
Proof. reflexivity. Qed.

End LifecycleFacts.

Section ComparisonFacts.
Import Core.
Local Open Scope Q_scope.

Lemma find_baseline_id (baseline_id : Z) ms b :
  find_baseline baseline_id ms = Some b ->
  In b ms /\ Machines.id b = baseline_id.
Proof.
  unfold find_baseline. intros H. apply find_some in H as [Hin Heq].
  split; [exact Hin|]. apply Z.eqb_eq. exact Heq.
Qed.

Lemma compare_entry_machine b m : Machines.machine (compare_entry b m) = m.
Proof. unfold compare_entry. destruct (Machines.id m =? Machines.id b)%Z; reflexivity. Qed.

(** C6. With a known baseline the comparison has one entry per machine,
    in the order of the summaries and around the very summary.  An
    entry of the baseline machine has its three deltas exactly 0 and
    its flag set.  For any other machine the flag is clear, the
    check-ins delta is the exact difference of the totals, the
    success-rate delta is the difference of the rates kept to one
    decimal (within 0.05 of it, and equal to it when both rates have
    one decimal), and the healing-time delta is the difference of the
    averages, absent when either machine has none. *)
Theorem compare_deltas (baseline_id : Z) (ms : list Machines.Machine)
    (b : Machines.Machine) :
  find_baseline baseline_id ms = Some b ->
  exists r,
    compare baseline_id ms = inr r /\
    Machines.baseline_id r = baseline_id /\
    map Machines.machine (Machines.machines r) = ms /\
    forall e, In e (Machines.machines r) ->
      (Machines.id (Machines.machine e) = baseline_id ->
         Machines.success_rate_delta e = 0 /\
         Machines.checkins_delta e = 0%Z /\
         Machines.healing_time_delta e = Some 0 /\
         Machines.is_baseline e = 1%Z) /\
      (Machines.id (Machines.machine e) <> baseline_id ->
         Machines.is_baseline e = 0%Z /\
         Machines.checkins_delta e =
           (Machines.total_checkins (Machines.machine e)
            - Machines.total_checkins b)%Z /\
         Qabs (Machines.success_rate_delta e
               - (Machines.success_rate (Machines.machine e)
                  - Machines.success_rate b)) <= 1 # 20 /\
         (one_decimal (Machines.success_rate (Machines.machine e)
                       - Machines.success_rate b) ->
            Machines.success_rate_delta e ==
              Machines.success_rate (Machines.machine e)
              - Machines.success_rate b) /\
         (forall x y,
            Machines.avg_healing_time_minutes (Machines.machine e) = Some x ->
            Machines.avg_healing_time_minutes b = Some y ->
            Machines.healing_time_delta e = Some (x - y)) /\
         (Machines.avg_healing_time_minutes (Machines.machine e) = None \/
          Machines.avg_healing_time_minutes b = None ->
            Machines.healing_time_delta e = None)).
Proof.
  intros Hfind. destruct (find_baseline_id _ _ _ Hfind) as [_ Hid].
  unfold compare. rewrite Hfind. eexists. split; [reflexivity|]. cbn.
  split; [reflexivity|]. split.
  - rewrite map_map. erewrite map_ext; [apply map_id|].
    intros m. apply compare_entry_machine.
  - intros e He. apply in_map_iff in He as [m [<- _]].
    rewrite compare_entry_machine. unfold compare_entry. rewrite Hid.
    destruct (Machines.id m =? baseline_id)%Z eqn:E.
    + apply Z.eqb_eq in E. split; [|intros Hne; contradiction].
      intros _. cbn. repeat split; reflexivity.
    + apply Z.eqb_neq in E. split; [intros Heq; contradiction|].
      intros _.
      cbn [Machines.success_rate_delta Machines.checkins_delta
           Machines.healing_time_delta Machines.is_baseline].
      split; [reflexivity|]. split; [reflexivity|].
      split; [apply round1_close|]. split; [apply round1_one_decimal|].
      split.
      * intros x y -> ->. reflexivity.
      * intros [->| ->]; [reflexivity|].
        destruct (Machines.avg_healing_time_minutes m); reflexivity.
Qed.

End ComparisonFacts.

Lemma compare_deltas_witness :
  exists r,
    Core.compare 1 [Samples.healer_a; Samples.healer_b; Samples.healer_c] = inr r /\
    map Machines.success_rate_delta (Machines.machines r)
      = [0; -100 # 10; -900 # 10]%Q /\
    map Machines.checkins_delta (Machines.machines r) = [0; -40; -120]%Z /\
    map Machines.is_baseline (Machines.machines r) = [1; 0; 0]%Z /\
    map Machines.healing_time_delta (Machines.machines r)
      = [Some 0%Q; Some ((30 # 1) - (45 # 2))%Q; None].
Proof.
  destruct (compare_deltas 1 [Samples.healer_a; Samples.healer_b; Samples.healer_c]
              Samples.healer_a eq_refl) as [r [Hr _]].
  exists r. split; [exact Hr|].
  vm_compute in Hr. injection Hr as <-. vm_compute. repeat split; reflexivity.
Defined.

(* ================================================================== *)
(** * Worked values *)
(* ================================================================== *)

(** Rounding the remainder can show sixty minutes, and rounding below
    the hour can show "60 min". *)
Example formatTreatmentTime_rounds_up_to_sixty :
  ActiveCheckins.formatTreatmentTime (239 # 2) = "1h 60m" /\
  ActiveCheckins.formatTreatmentTime (119 # 2) = "60 min".
Proof. split; vm_compute; reflexivity. Qed.

(** A zero delta is shown as a dash, others with sign and one decimal. *)
Example formatDelta_values (exponent_form : Q -> string) :
  Machines.formatDelta exponent_form 0 "%" = "-" /\
  Machines.formatDelta exponent_form (-100 # 10) "%" = "-10.0%" /\
  Machines.formatDelta exponent_form (15 # 2) " min" = "+7.5 min".
Proof. repeat split; vm_compute; reflexivity. Qed.

(** The dashboard sends whatever [segmentBy] the address bar holds, and
    leaves the parameter out for the choice "none". *)
Example checkins_params_forward_segment :
  Dashboard.checkins_params
    (Dashboard.filters_of [("segmentBy", "pokemon"); ("start", "2024-01-01")])
    = [("start_date", "2024-01-01"); ("group_by", "day"); ("segment_by", "pokemon")] /\
  Dashboard.checkins_params
    (Dashboard.filters_of [("segmentBy", Dashboard.segment_choice "none")])
    = [("group_by", "day")].
Proof. split; vm_compute; reflexivity. Qed.

(** Three check-ins, two healed and one in treatment: the rate is 100. *)
Example success_rate_scenario :
  Core.success_rate
    [ Core.mkCheckin 1 25 1 0 (Some 600%Z) (Some Core.successful) 12 35;
      Core.mkCheckin 2 25 1 900 (Some 2700%Z) (Some Core.successful) 8 35;
      Core.mkCheckin 3 1 2 1000 None None 20 45 ]
  = inr (1000 # 10)%Q.
Proof. vm_compute. reflexivity. Qed.

(** An unknown baseline is reported, not replaced. *)
Example compare_unknown_baseline :
  Core.compare 7 [Samples.healer_a; Samples.healer_b]
  = inl (Core.NotFound "baseline not found: 7").
Proof. vm_compute. reflexivity. Qed.

(* ================================================================== *)
(** * Properties of the filter state in the address bar *)
(* ================================================================== *)

Section SearchParamsFacts.
Import Dashboard.

Lemma get_delete_ne (k k' : string) (ps : URLSearchParams) :
  k' <> k -> get k' (DashboardPage.delete k ps) = get k' ps.
Proof.
  intros Hne. unfold get, DashboardPage.delete.
  induction ps as [|[k1 v1] rest IH]; [reflexivity|]. cbn.
  destruct (String.eqb_spec k1 k) as [->|Hk1]; cbn.
  - destruct (String.eqb_spec k k') as [Heq|_]; [congruence|]. exact IH.
  - destruct (String.eqb_spec k1 k'); [reflexivity|]. exact IH.
Qed.

Lemma get_delete_eq (k : string) (ps : URLSearchParams) :
  get k (DashboardPage.delete k ps) = None.
Proof.
  unfold get, DashboardPage.delete.
  induction ps as [|[k1 v1] rest IH]; [reflexivity|]. cbn.
  destruct (String.eqb_spec k1 k) as [->|Hk1]; cbn; [exact IH|].
  destruct (String.eqb_spec k1 k); [contradiction|]. exact IH.
Qed.

Lemma get_set_eq (k v : string) (ps : URLSearchParams) :
  get k (set k v ps) = Some v.
Proof.
  unfold get. induction ps as [|[k1 v1] rest IH]; cbn.
  - rewrite String.eqb_refl. reflexivity.
  - destruct (String.eqb_spec k1 k) as [->|Hk1]; cbn.
    + rewrite String.eqb_refl. reflexivity.
    + destruct (String.eqb_spec k1 k); [contradiction|]. exact IH.
Qed.

Lemma get_set_ne (k k' v : string) (ps : URLSearchParams) :
  k' <> k -> get k' (set k v ps) = get k' ps.
Proof.
  intros Hne. induction ps as [|[k1 v1] rest IH]; cbn.
  - unfold get. cbn. destruct (String.eqb_spec k k'); [congruence|reflexivity].
  - destruct (String.eqb_spec k1 k) as [->|Hk1].
    + pose proof (get_delete_ne k k' rest Hne) as Hdel.
      unfold get, DashboardPage.delete in *. cbn.
      destruct (String.eqb_spec k k'); [congruence|]. exact Hdel.
    + unfold get in *. cbn. destruct (String.eqb_spec k1 k'); [reflexivity|]. exact IH.
Qed.

Lemma occurs_delete (k : string) (ps : URLSearchParams) :
  DashboardPage.occurs k (DashboardPage.delete k ps) = 0.
Proof.
  unfold DashboardPage.occurs, DashboardPage.delete.
  induction ps as [|[k1 v1] rest IH]; [reflexivity|]. cbn.
  destruct (String.eqb k1 k) eqn:E; cbn; [exact IH|]. rewrite E. exact IH.
Qed.

Lemma occurs_set (k v : string) (ps : URLSearchParams) :
  DashboardPage.occurs k (set k v ps) = 1.
Proof.
  induction ps as [|[k1 v1] rest IH]; cbn.
  - unfold DashboardPage.occurs. cbn. rewrite String.eqb_refl. reflexivity.
  - destruct (String.eqb k1 k) eqn:E.
    + pose proof (occurs_delete k rest) as Hdel.
      unfold DashboardPage.occurs, DashboardPage.delete in *. cbn. rewrite String.eqb_refl. cbn.
      rewrite Hdel. reflexivity.
    + unfold DashboardPage.occurs in *. cbn. rewrite E. exact IH.
Qed.

(** X1. [updateFilter] writes one key of the address bar and leaves the
    others alone: afterwards the key reads as the given value when the
    value is non-empty and is absent when it is empty, it occurs at
    most once, and every other key reads as before. *)
Theorem updateFilter_get (key value : string) (searchParams : URLSearchParams) :
  get key (DashboardPage.updateFilter key value searchParams)
    = (if truthy value then Some value else None) /\
  DashboardPage.occurs key (DashboardPage.updateFilter key value searchParams)
    = (if truthy value then 1 else 0) /\
  (forall k, k <> key ->
     get k (DashboardPage.updateFilter key value searchParams)
       = get k searchParams).
Proof.
  unfold DashboardPage.updateFilter. destruct (truthy value).
  - split; [apply get_set_eq|]. split; [apply occurs_set|].
    intros k Hk. apply get_set_ne. exact Hk.
  - split; [apply get_delete_eq|]. split; [apply occurs_delete|].
    intros k Hk. apply get_delete_ne. exact Hk.
Qed.

Lemma get_or_set_ne (k k' v fallback : string) (ps : URLSearchParams) :
  k' <> k -> get_or k' fallback (set k v ps) = get_or k' fallback ps.
Proof. intros H. unfold get_or. rewrite get_set_ne by exact H. reflexivity. Qed.

Lemma get_or_delete_ne (k k' fallback : string) (ps : URLSearchParams) :
  k' <> k -> get_or k' fallback (DashboardPage.delete k ps) = get_or k' fallback ps.
Proof. intros H. unfold get_or. rewrite get_delete_ne by exact H. reflexivity. Qed.

Lemma checkins_params_segment_by (f : Filters) :
  get "segment_by" (checkins_params f)
    = (if truthy (segmentBy f) then Some (segmentBy f) else None).
Proof.
  unfold checkins_params.
  destruct (truthy (segmentBy f)); [apply get_set_eq|].
  rewrite get_set_ne by discriminate.
  destruct (truthy (endDate f)), (truthy (startDate f));
    repeat rewrite get_set_ne by discriminate; reflexivity.
Qed.

(** X2. The "Segment By" select round-trips through the address bar:
    after choosing a (non-empty) option the select shows that option
    again, the other filters are as before, and the next request
    carries [segment_by] with the chosen value, except for the option
    "none", for which the parameter is left out. *)
Theorem segment_select_round_trip (v : string) (searchParams : URLSearchParams) :
  truthy v = true ->
  DashboardPage.segment_select_value
    (DashboardPage.onSegmentChange v searchParams) = v /\
  get "segment_by"
    (checkins_params (filters_of (DashboardPage.onSegmentChange v searchParams)))
    = (if String.eqb v "none" then None else Some v) /\
  startDate (filters_of (DashboardPage.onSegmentChange v searchParams))
    = startDate (filters_of searchParams) /\
  endDate (filters_of (DashboardPage.onSegmentChange v searchParams))
    = endDate (filters_of searchParams) /\
  groupBy (filters_of (DashboardPage.onSegmentChange v searchParams))
    = groupBy (filters_of searchParams).
Proof.
  intros Hv.
  assert (Hseg : segmentBy (filters_of (DashboardPage.onSegmentChange v searchParams))
                 = segment_choice v).
  { unfold DashboardPage.onSegmentChange, DashboardPage.updateFilter, segment_choice.
    cbn [filters_of segmentBy]. unfold get_or.
    destruct (String.eqb_spec v "none") as [->|Hne]; cbn.
    - rewrite get_delete_eq. reflexivity.
    - rewrite Hv, get_set_eq, Hv. reflexivity. }
  split; [|split].
  - unfold DashboardPage.segment_select_value. cbv zeta. rewrite Hseg.
    unfold segment_choice. destruct (String.eqb_spec v "none") as [->|Hne]; cbn.
    + reflexivity.
    + rewrite Hv. reflexivity.
  - rewrite checkins_params_segment_by, Hseg. unfold segment_choice.
    destruct (String.eqb_spec v "none") as [->|Hne]; cbn; [reflexivity|].
    rewrite Hv. reflexivity.
  - unfold DashboardPage.onSegmentChange, DashboardPage.updateFilter.
    cbn [filters_of startDate endDate groupBy].
    destruct (truthy (segment_choice v));
      repeat split;
      first [apply get_or_set_ne; discriminate | apply get_or_delete_ne; discriminate].
Qed.

(** X3. Whatever the address bar holds, the trend request carries
    [group_by] exactly once, with the value of [groupBy] or "day" when
    that is missing or empty; [start_date], [end_date] and [segment_by]
    are carried exactly when the corresponding filter is non-empty,
    with its value unchanged; no parameter is repeated. *)
Theorem checkins_params_shape (searchParams : URLSearchParams) :
  get "group_by" (checkins_params (filters_of searchParams))
    = Some (get_or "groupBy" "day" searchParams) /\
  get "start_date" (checkins_params (filters_of searchParams))
    = (if truthy (get_or "start" "" searchParams)
       then Some (get_or "start" "" searchParams) else None) /\
  get "end_date" (checkins_params (filters_of searchParams))
    = (if truthy (get_or "end" "" searchParams)
       then Some (get_or "end" "" searchParams) else None) /\
  get "segment_by" (checkins_params (filters_of searchParams))
    = (if truthy (get_or "segmentBy" "" searchParams)
       then Some (get_or "segmentBy" "" searchParams) else None) /\
  List.NoDup (map fst (checkins_params (filters_of searchParams))) /\
  (get "groupBy" searchParams = None ->
   get "group_by" (checkins_params (filters_of searchParams)) = Some "day").
Proof.
  unfold checkins_params, filters_of.
  cbn [startDate endDate groupBy segmentBy].
  assert (Hday : get "groupBy" searchParams = None ->
                 get_or "groupBy" "day" searchParams = "day").
  { intros H. unfold get_or. rewrite H. reflexivity. }
  destruct (truthy (get_or "start" "" searchParams)),
           (truthy (get_or "end" "" searchParams)),
           (truthy (get_or "segmentBy" "" searchParams));
    cbn; (split; [reflexivity|]); (split; [reflexivity|]);
    (split; [reflexivity|]); (split; [reflexivity|]);
    (split; [|intros H; rewrite (Hday H); reflexivity]);
    repeat (constructor; [cbn; intuition discriminate|]); constructor.
Qed.

(** X11. The baseline select round-trips through the address bar:
    after [handleBaselineChange] the select shows the chosen machine,
    or "none" when the choice was "none" or empty, in which case no
    baseline is left in the address bar; every other key reads as
    before. *)
Theorem handleBaselineChange_round_trip (value : string)
    (searchParams : URLSearchParams) :
  MachinesPage.baseline_select_value
    (MachinesPage.handleBaselineChange value searchParams)
    = (if truthy value && negb (String.eqb value "none") then value else "none") /\
  MachinesPage.baselineId
    (MachinesPage.handleBaselineChange value searchParams)
    = (if truthy value && negb (String.eqb value "none") then value else "") /\
  (forall k, k <> "baseline" ->
     get k (MachinesPage.handleBaselineChange value searchParams)
       = get k searchParams).
Proof.
  unfold MachinesPage.baseline_select_value, MachinesPage.baselineId,
    MachinesPage.handleBaselineChange, get_or.
  destruct (truthy value) eqn:Hv; cbn [andb].
  - destruct (String.eqb value "none") eqn:Hn; cbn [negb].
    + rewrite get_delete_eq. cbn. repeat split.
      intros k Hk. apply get_delete_ne. exact Hk.
    + rewrite get_set_eq. cbv zeta. rewrite !Hv. repeat split.
      intros k Hk. apply get_set_ne. exact Hk.
  - rewrite get_delete_eq. cbn. repeat split.
    intros k Hk. apply get_delete_ne. exact Hk.
Qed.

End SearchParamsFacts.

Lemma segment_select_round_trip_witness :
  DashboardPage.segment_select_value
    (DashboardPage.onSegmentChange "pokemon" [("start", "2024-01-01"); ("segmentBy", "type")])
    = "pokemon" /\
  DashboardPage.segment_select_value
    (DashboardPage.onSegmentChange "none" [("start", "2024-01-01"); ("segmentBy", "type")])
    = "none".
Proof.
  split.
  - apply (segment_select_round_trip "pokemon"
             [("start", "2024-01-01"); ("segmentBy", "type")] eq_refl).
  - apply (segment_select_round_trip "none"
             [("start", "2024-01-01"); ("segmentBy", "type")] eq_refl).
Defined.

(* ================================================================== *)
(** * Properties of the page loaders *)
(* ================================================================== *)

Section PromiseFacts.
Import Js Promise.

Lemma scan_in (idx : list nat) (rs : list (option Thrown)) (e : Thrown) :
  scan idx rs = Some e -> In (Some e) rs.
Proof.
  induction idx as [|i rest IH]; cbn; [discriminate|].
  destruct (nth_error rs i) as [[e'|]|] eqn:E; try exact IH.
  intros [= <-]. apply nth_error_In in E. exact E.
Qed.

Lemma scan_app (a b : list nat) (rs : list (option Thrown)) :
  scan (a ++ b) rs = match scan a rs with Some e => Some e | None => scan b rs end.
Proof.
  induction a as [|i rest IH]; cbn; [reflexivity|].
  destruct (nth_error rs i) as [[e'|]|]; try exact IH. reflexivity.
Qed.

Lemma scan_hits (idx : list nat) (rs : list (option Thrown)) (i : nat) (e : Thrown) :
  In i idx -> nth_error rs i = Some (Some e) -> exists e', scan idx rs = Some e'.
Proof.
  intros Hin Hnth. induction idx as [|j rest IH]; [contradiction|]. cbn.
  destruct Hin as [->|Hin].
  - rewrite Hnth. eauto.
  - destruct (nth_error rs j) as [[e'|]|]; eauto.
Qed.

Lemma first_rejection_in order rs e :
  first_rejection order rs = Some e -> In (Some e) rs.
Proof. apply scan_in. Qed.

Lemma first_rejection_some order rs e :
  In (Some e) rs -> exists e', first_rejection order rs = Some e'.
Proof.
  intros Hin. apply In_nth_error in Hin as [i Hi].
  unfold first_rejection. rewrite scan_app.
  destruct (scan order rs) as [e'|]; [eauto|].
  apply (scan_hits _ rs i e); [|exact Hi].
  apply in_seq. split; [lia|]. cbn.
  apply nth_error_Some. rewrite Hi. discriminate.
Qed.

Lemma await_all3_settles {St A B C : Type} (order : list nat)
    (p1 : Completion A) (p2 : Completion B) (p3 : Completion C) :
  (exists a b c, p1 = Normal a /\ p2 = Normal b /\ p3 = Normal c /\
     await_all3 (St := St) order p1 p2 p3 = lift (Normal (a, b, c))) \/
  (exists e, In (Some e) [rejection p1; rejection p2; rejection p3] /\
     await_all3 (St := St) order p1 p2 p3 = lift (Abrupt e)).
Proof.
  destruct p1 as [a|e1], p2 as [b|e2], p3 as [c|e3];
    [left; exists a, b, c; repeat split; reflexivity|..]; right;
    unfold await_all3;
    match goal with
    | |- context [first_rejection order ?rs] =>
        destruct (first_rejection order rs) as [e|] eqn:Hq;
        [ exists e; split; [exact (first_rejection_in _ _ _ Hq)|reflexivity]
        | exfalso;
          assert (Hsome : exists e0, In (Some e0) rs) by (cbn; eauto 6);
          destruct Hsome as [e0 He0];
          destruct (first_rejection_some order rs e0 He0) as [e' He'];
          congruence ]
    end.
Qed.


End PromiseFacts.

Section DashboardLoadFacts.
Import Js Dashboard DashboardPage.
Context {C L M : Type}.
Variable fetchCheckins : Request -> Completion C.
Variable fetchLeaderboards : Request -> Completion L.
Variable fetchMachines : Request -> Completion M.
Variable serialize : URLSearchParams -> string.

(** X4. Loading the dashboard is all or nothing.  [fetchData] always
    sends the three requests, never throws and ends with loading off.
    When all three succeed the three results are stored and the error
    is cleared; when any of them fails none of the three is touched,
    whatever the others returned, and the error is the message of one
    of the failures. *)
Theorem dashboard_fetchData_all_or_nothing
    (order : list nat) (f : Filters) (w : World (State C L M)) :
  let run := fetchData fetchCheckins fetchLeaderboards fetchMachines serialize
               order f w in
  fst run = Normal tt /\
  sent (snd run) = sent w ++ [checkins_request serialize f;
                              leaderboards_request; machines_request] /\
  loading (ui (snd run)) = false /\
  match fetchCheckins (checkins_request serialize f),
        fetchLeaderboards leaderboards_request,
        fetchMachines machines_request with
  | Normal c, Normal l, Normal m =>
      checkins (ui (snd run)) = Some c /\
      leaderboards (ui (snd run)) = Some l /\
      machines (ui (snd run)) = Some m /\
      error (ui (snd run)) = None
  | p1, p2, p3 =>
      checkins (ui (snd run)) = checkins (ui w) /\
      leaderboards (ui (snd run)) = leaderboards (ui w) /\
      machines (ui (snd run)) = machines (ui w) /\
      exists e,
        In (Some e) [Promise.rejection p1; Promise.rejection p2;
                     Promise.rejection p3] /\
        error (ui (snd run)) = Some (message_or "Failed to load data" e)
  end.
Proof.
  cbv zeta.
  destruct (await_all3_settles (St := State C L M) order
              (fetchCheckins (checkins_request serialize f))
              (fetchLeaderboards leaderboards_request)
              (fetchMachines machines_request)) as [Hok|[e [Hin He]]].
  - destruct Hok as [c [l [m [H1 [H2 [H3 He]]]]]].
    unfold fetchData, bind, try_finally, try_catch, update, ret,
      Promise.start_fetch.
    cbn -[Promise.await_all3]. rewrite He, H1, H2, H3. unfold lift.
    cbn. rewrite <- !app_assoc. repeat split; reflexivity.
  - unfold fetchData, bind, try_finally, try_catch, update, ret,
      Promise.start_fetch.
    cbn -[Promise.await_all3]. rewrite He. unfold lift.
    cbn. rewrite <- !app_assoc.
    split; [reflexivity|]. split; [reflexivity|]. split; [reflexivity|].
    destruct (fetchCheckins (checkins_request serialize f)) as [c|e1];
    destruct (fetchLeaderboards leaderboards_request) as [l|e2];
    destruct (fetchMachines machines_request) as [m|e3];
      try (cbn in Hin; exfalso; intuition discriminate);
      (split; [reflexivity|]); (split; [reflexivity|]); (split; [reflexivity|]);
      exists e; (split; [exact Hin|reflexivity]).
Qed.

End DashboardLoadFacts.

Section MachinesLoadFacts.
Import Js Machines MachinesPage.
Variable fetchMachines : Request -> Completion (list Machine).
Variable fetchCompare : Request -> Completion CompareResponse.


End MachinesLoadFacts.

Section ActiveCheckinsPageFacts.
Import Js ActiveCheckins ActiveCheckinsPage.

(** X14. Refreshing the active check-ins never throws, sends the one
    GET of [/checkins/active], ends with loading off and leaves the
    dismiss dialog as it was.  A success stores the response and
    clears the error.  A failure keeps the list that was loaded
    before and sets the error; the error card then replaces the page
    only when nothing had been loaded and the message is not empty. *)
Theorem refresh_keeps_loaded_list
    (fetchActive : Request -> Completion ActiveCheckinsResponse) (s : State) :
  let s' := ui (snd (refresh fetchActive s)) in
  fst (refresh fetchActive s) = Normal tt /\
  sent (snd (refresh fetchActive s)) = [Js.get "/checkins/active"] /\
  loading s' = false /\
  dismissDialogOpen s' = dismissDialogOpen s /\
  selectedCheckin s' = selectedCheckin s /\
  dismissOutcome s' = dismissOutcome s /\
  dismissing s' = dismissing s /\
  match fetchActive (Js.get "/checkins/active") with
  | Normal data =>
      checkins s' = Some data /\ error s' = None /\ shows_error_card s' = false
  | Abrupt err =>
      checkins s' = checkins s /\
      error s' = Some (message_or "Failed to load data" err) /\
      shows_error_card s' =
        Dashboard.truthy (message_or "Failed to load data" err) &&
        match checkins s with Some _ => false | None => true end
  end.
Proof.
  cbv zeta. unfold refresh, fetchData, bind, try_finally, try_catch,
    await_fetch, update. cbn.
  destruct (fetchActive (Js.get "/checkins/active")) as [data|err]; cbn;
    repeat split; reflexivity.
Qed.

Section Dismiss.
Context {R : Type}.
Variable fetchApi : Request -> Completion R.

(** X15. A failed dismiss is silent.  When the selected check-in comes
    from a loaded list and the request fails, the message is stored
    but the error card is not shown, and the dialog stays as it was,
    open on the same check-in with the same outcome. *)
Theorem failed_dismiss_shows_no_error
    (s : State) (sel : ActiveCheckin) (p : ActiveCheckinsResponse) (err : Thrown) :
  selectedCheckin s = Some sel ->
  checkins s = Some p ->
  fetchApi (dismiss_request sel (dismissOutcome s)) = Abrupt err ->
  let s' := ui (snd (click_dismiss fetchApi s)) in
  error s' = Some (message_or "Failed to dismiss check-in" err) /\
  shows_error_card s' = false /\
  checkins s' = Some p /\
  dismissDialogOpen s' = dismissDialogOpen s /\
  selectedCheckin s' = Some sel /\
  dismissOutcome s' = dismissOutcome s.
Proof.
  intros Hsel Hp Hnet. cbv zeta.
  rewrite (click_dismiss_rejected fetchApi s sel err Hsel Hnet). cbn.
  unfold shows_error_card. cbn. rewrite Hp, Hsel.
  rewrite andb_false_r. repeat split; reflexivity.
Qed.

(** X16. Confirming twice does not dismiss twice.  After a successful
    dismiss the selection is gone, so a second run of the handler
    sends nothing and changes nothing; after a failed one the
    selection and the outcome are kept, so a second run sends the same
    request again. *)
Theorem second_confirm (s : State) (sel : ActiveCheckin) :
  selectedCheckin s = Some sel ->
  let s' := ui (snd (click_dismiss fetchApi s)) in
  match fetchApi (dismiss_request sel (dismissOutcome s)) with
  | Normal _ =>
      click_dismiss fetchApi s' = (Normal tt, {| ui := s'; sent := [] |})
  | Abrupt _ =>
      sent (snd (click_dismiss fetchApi s')) =
        [dismiss_request sel (dismissOutcome s)]
  end.
Proof.
  intros Hsel. cbv zeta.
  destruct (fetchApi (dismiss_request sel (dismissOutcome s))) as [d|err] eqn:Hnet.
  - rewrite (click_dismiss_resolved fetchApi s sel d Hsel Hnet). reflexivity.
  - rewrite (click_dismiss_rejected fetchApi s sel err Hsel Hnet).
    cbn [snd ui].
    rewrite (click_dismiss_sent fetchApi _ sel) by exact Hsel.
    reflexivity.
Qed.

End Dismiss.
End ActiveCheckinsPageFacts.

Lemma failed_dismiss_shows_no_error_witness :
  ActiveCheckinsPage.shows_error_card
    (Js.ui (snd (ActiveCheckins.click_dismiss Samples.refuses Samples.two_patients)))
  = false.
Proof.
  apply (failed_dismiss_shows_no_error Samples.refuses Samples.two_patients
           Samples.pikachu
           {| ActiveCheckins.active_checkins := [Samples.pikachu; Samples.bulbasaur];
              ActiveCheckins.count := 2 |}
           (Js.ErrorObject "API error: 500") eq_refl eq_refl eq_refl).
Defined.

Lemma second_confirm_witness :
  ActiveCheckins.click_dismiss Samples.accepts
    (Js.ui (snd (ActiveCheckins.click_dismiss Samples.accepts Samples.two_patients)))
  = (Js.Normal tt,
     {| Js.ui := Js.ui (snd (ActiveCheckins.click_dismiss Samples.accepts
                               Samples.two_patients));
        Js.sent := [] |}).
Proof.
  exact (second_confirm Samples.accepts Samples.two_patients Samples.pikachu eq_refl).
Defined.

(* ================================================================== *)
(** * Properties of the dashboard cards and charts *)
(* ================================================================== *)

Section TopMachineFacts.
Import DashboardPage.
Local Open Scope Q_scope.

Lemma or_zero_eq (x : Q) : or_zero x == x.
Proof.
  unfold or_zero. destruct (Qeq_bool x 0) eqn:E; [|reflexivity].
  apply Qeq_bool_iff in E. symmetry. exact E.
Qed.

Lemma fold_pick (l : list Machines.Machine) (b : Machines.Machine) :
  exists m,
    fold_left
      (fun best current =>
         if Qlt_le_dec (best_rate best) (or_zero (Machines.success_rate current))
         then Some current else best)
      l (Some b) = Some m /\
    ((m = b /\ forall x, In x l -> Machines.success_rate x <= Machines.success_rate b) \/
     (exists pre post, l = pre ++ m :: post /\
        Machines.success_rate b < Machines.success_rate m /\
        (forall x, In x pre -> Machines.success_rate x < Machines.success_rate m) /\
        (forall x, In x post -> Machines.success_rate x <= Machines.success_rate m))).
Proof.
  revert b. induction l as [|c t IH]; intros b.
  - exists b. split; [reflexivity|]. left. split; [reflexivity|]. intros x [].
  - cbn [fold_left best_rate].
    pose proof (or_zero_eq (Machines.success_rate b)) as Hb.
    pose proof (or_zero_eq (Machines.success_rate c)) as Hc.
    destruct (Qlt_le_dec (or_zero (Machines.success_rate b))
                         (or_zero (Machines.success_rate c))) as [Hlt|Hge].
    + destruct (IH c) as [m [Hm Hcase]]. exists m. split; [exact Hm|]. right.
      destruct Hcase as [[-> Hall]|[pre [post [-> [Hcm [Hpre Hpost]]]]]].
      * exists [], t. split; [reflexivity|]. split; [lra|].
        split; [intros x []|exact Hall].
      * exists (c :: pre), post. split; [reflexivity|].
        split; [lra|]. split; [|exact Hpost].
        intros x [<-|Hx]; [exact Hcm|apply Hpre; exact Hx].
    + destruct (IH b) as [m [Hm Hcase]]. exists m. split; [exact Hm|].
      destruct Hcase as [[-> Hall]|[pre [post [-> [Hbm [Hpre Hpost]]]]]].
      * left. split; [reflexivity|].
        intros x [<-|Hx]; [lra|apply Hall; exact Hx].
      * right. exists (c :: pre), post. split; [reflexivity|].
        split; [exact Hbm|]. split; [|exact Hpost].
        intros x [<-|Hx]; [lra|apply Hpre; exact Hx].
Qed.

(** X5. The "Top Machine" card shows the first machine of the list with
    the highest success rate: every machine before it has a strictly
    lower rate and every machine after it a rate that is not higher.
    For an empty list there is no top machine. *)
Theorem topMachine_is_first_best (l : list Machines.Machine) :
  match topMachine (Some l) with
  | None => l = []
  | Some m =>
      exists pre post, l = pre ++ m :: post /\
        (forall x, In x pre -> Machines.success_rate x < Machines.success_rate m) /\
        (forall x, In x post -> Machines.success_rate x <= Machines.success_rate m)
  end.
Proof.
  unfold topMachine. destruct l as [|h t]; [reflexivity|].
  cbn [fold_left head best_rate].
  destruct (Qlt_le_dec (or_zero (Machines.success_rate h))
                       (or_zero (Machines.success_rate h))) as [Hlt|_]; [lra|].
  destruct (fold_pick t h) as [m [Hm Hcase]]. rewrite Hm.
  destruct Hcase as [[-> Hall]|[pre [post [-> [Hhm [Hpre Hpost]]]]]].
  - exists [], t. split; [reflexivity|]. split; [intros x []|exact Hall].
  - exists (h :: pre), post. split; [reflexivity|]. split; [|exact Hpost].
    intros x [<-|Hx]; [exact Hhm|apply Hpre; exact Hx].
Qed.

End TopMachineFacts.

Section SegmentFacts.
Import Dashboard DashboardPage.

Lemma existsb_eqb_in (s : string) (l : list string) :
  existsb (String.eqb s) l = true <-> In s l.
Proof.
  rewrite existsb_exists. split.
  - intros [x [Hin Heq]]. apply String.eqb_eq in Heq. subst. exact Hin.
  - intros Hin. exists s. split; [exact Hin|apply String.eqb_refl].
Qed.

Lemma Set_add_spec (acc : list string) (s : string) :
  List.NoDup acc ->
  List.NoDup (Set_add acc s) /\
  forall x, In x (Set_add acc s) <-> In x acc \/ x = s.
Proof.
  intros Hnd. unfold Set_add.
  destruct (existsb (String.eqb s) acc) eqn:E.
  - apply existsb_eqb_in in E. split; [exact Hnd|].
    intros x. split; [tauto|]. intros [H| ->]; assumption.
  - assert (Hout : ~ In s acc).
    { intros Hin. apply existsb_eqb_in in Hin. congruence. }
    split.
    + apply List.NoDup_app; [exact Hnd|repeat constructor; intros []|].
      intros a Ha [<-|[]]. contradiction.
    + intros x. rewrite in_app_iff. cbn. intuition congruence.
Qed.

Lemma fold_Set_add_spec (l acc : list string) :
  List.NoDup acc ->
  List.NoDup (fold_left Set_add l acc) /\
  forall x, In x (fold_left Set_add l acc) <-> In x acc \/ In x l.
Proof.
  revert acc. induction l as [|s l IH]; intros acc Hnd; cbn.
  - split; [exact Hnd|]. intros x. tauto.
  - destruct (Set_add_spec acc s Hnd) as [Hnd' Hin'].
    destruct (IH (Set_add acc s) Hnd') as [Hnd'' Hin''].
    split; [exact Hnd''|]. intros x. rewrite Hin'', Hin'. intuition congruence.
Qed.

Lemma keep_truthy_in (l : list (option string)) (s : string) :
  In s (keep_truthy l) <-> In (Some s) l /\ s <> "".
Proof.
  induction l as [|[t|] rest IH]; cbn.
  - tauto.
  - unfold truthy. destruct (String.eqb_spec t "") as [->|Hne]; cbn.
    + rewrite IH. split; [tauto|]. intros [[[= <-]|H] Hs]; [contradiction|tauto].
    + rewrite IH. split.
      * intros [<-|[H Hs]]; [tauto|tauto].
      * intros [[[= <-]|H] Hs]; [tauto|tauto].
  - rewrite IH. split; [tauto|]. intros [[H|H] Hs]; [discriminate|tauto].
Qed.

Lemma segments_spec (data : list TrendPoint) :
  List.NoDup (segments (Some data)) /\
  forall s, In s (segments (Some data)) <->
            s <> "" /\ exists d, In d data /\ segment d = Some s.
Proof.
  unfold segments, Set_of.
  destruct (fold_Set_add_spec (keep_truthy (map segment data)) [])
    as [Hnd Hin]; [constructor|].
  split; [exact Hnd|]. intros s. rewrite Hin, keep_truthy_in, in_map_iff. cbn.
  split.
  - intros [[]|[[d [Hd Hin']] Hs]]. split; [exact Hs|]. eauto.
  - intros [Hs [d [Hin' Hd]]]. right. split; [|exact Hs]. eauto.
Qed.

(** X6. The segments of the chart are the distinct non-empty segment
    labels of the data: no label is listed twice, a label is listed
    exactly when some data point carries it and it is not empty, and
    points without a segment contribute nothing.  Without data there
    are no segments. *)
Theorem segments_are_distinct_labels (data : list TrendPoint) :
  List.NoDup (segments (Some data)) /\
  (forall s, In s (segments (Some data)) <->
             s <> "" /\ exists d, In d data /\ segment d = Some s) /\
  segments None = [].
Proof.
  destruct (segments_spec data) as [Hnd Hin].
  split; [exact Hnd|]. split; [exact Hin|reflexivity].
Qed.

Lemma bars_sum (segs : list string) (d : TrendPoint) :
  List.NoDup segs ->
  fold_right Z.add 0%Z (map (fun seg => bar_value seg d) segs) =
    match segment d with
    | Some s => if existsb (String.eqb s) segs then total d else 0%Z
    | None => 0%Z
    end.
Proof.
  intros Hnd. unfold bar_value. destruct (segment d) as [s|].
  - induction segs as [|g segs IH]; [reflexivity|].
    inversion Hnd as [|g' segs' Hout Hnd']; subst. cbn.
    rewrite (IH Hnd').
    destruct (String.eqb_spec s g) as [->|Hne]; cbn.
    + destruct (existsb (String.eqb g) segs) eqn:E; [|lia].
      apply existsb_eqb_in in E. contradiction.
    + reflexivity.
  - induction segs as [|g segs IH]; [reflexivity|].
    inversion Hnd; subst. cbn. auto.
Qed.

(** X7. In a stacked bar every data point is plotted in the bar of its
    own segment only, and only when that segment is among the first
    eight: the bars of a point add up to its total in that case and to
    0 otherwise (a point of a ninth or later segment, or of no segment,
    is not plotted at all). *)
Theorem stack_height_spec (data : list TrendPoint) (d : TrendPoint) :
  stack_height (segments (Some data)) d =
    match segment d with
    | Some s =>
        if existsb (String.eqb s) (take 8 (segments (Some data)))
        then total d else 0%Z
    | None => 0%Z
    end.
Proof.
  unfold stack_height. apply bars_sum.
  destruct (segments_spec data) as [Hnd _].
  rewrite <- (firstn_skipn 8 (segments (Some data))) in Hnd.
  apply List.NoDup_app_remove_r in Hnd. exact Hnd.
Qed.

Lemma split_no_space (s : string) :
  no_space s = true -> split " " s = [s].
Proof.
  induction s as [|a s IH]; [reflexivity|]. cbn.
  destruct (Ascii.eqb a " "); cbn; [discriminate|].
  intros H. rewrite (IH H). reflexivity.
Qed.

Lemma split_at_space (a b : string) :
  no_space a = true -> split " " (a +:+ String " " b) = a :: split " " b.
Proof.
  induction a as [|c a IH]; [reflexivity|].
  change (String c a +:+ String " " b) with (String c (a +:+ String " " b)).
  cbn [split no_space].
  destruct (Ascii.eqb c " "); cbn [negb andb]; [discriminate|].
  intros H. rewrite (IH H). reflexivity.
Qed.

Lemma hour_label_of (day hour : string) :
  no_space day = true -> no_space hour = true -> hour <> "" ->
  hour_label (day +:+ " " +:+ hour) = hour.
Proof.
  intros Hday Hhour Hne. unfold hour_label.
  change (" " +:+ hour) with (String " " hour).
  rewrite (split_at_space day hour Hday), (split_no_space hour Hhour). cbn.
  unfold truthy. destruct (String.eqb_spec hour ""); [contradiction|reflexivity].
Qed.

Section ChartFacts.
Variable formatDate : string -> string.

(** X8. The chart keeps one point per data point, with its segment and
    counts unchanged.  Grouped by hour, a period written
    "<day> <hour>" is labelled by the hour alone, and a period without
    a space is labelled by itself; in any other grouping the label is
    [formatDate] of the period. *)
Theorem chartData_labels (grp : string) (data : list TrendPoint) :
  exists chart,
    chartData formatDate grp (Some data) = Some chart /\
    length chart = length data /\
    forall i d, nth_error data i = Some d ->
      exists d', nth_error chart i = Some d' /\
        segment d' = segment d /\ total d' = total d /\
        successful d' = successful d /\ failed d' = failed d /\
        (grp <> "hour" -> period d' = formatDate (period d)) /\
        (grp = "hour" ->
           (no_space (period d) = true -> period d' = period d) /\
           (forall day hour,
              period d = day +:+ " " +:+ hour ->
              no_space day = true -> no_space hour = true -> hour <> "" ->
              period d' = hour)).
Proof.
  unfold chartData. cbn. eexists. split; [reflexivity|].
  split; [apply length_map|].
  intros i d Hd. rewrite nth_error_map, Hd. cbn. eexists. split; [reflexivity|].
  cbn. repeat (split; [reflexivity|]). split.
  - intros Hne. destruct (String.eqb_spec grp "hour"); [contradiction|reflexivity].
  - intros ->. cbn. split.
    + intros Hns. unfold hour_label. rewrite (split_no_space _ Hns). reflexivity.
    + intros day hour -> Hday Hhour Hne. apply hour_label_of; assumption.
Qed.

End ChartFacts.
End SegmentFacts.

(* ================================================================== *)
(** * Properties of the comparison table *)
(* ================================================================== *)

Section DeltaFacts.
Import Js Machines MachinesPage.
Local Open Scope Q_scope.
Variable exponent_form : Q -> string.

Lemma append_cons (x : Ascii.ascii) (a b : string) :
  String x a +:+ b = String x (a +:+ b).
Proof. reflexivity. Qed.

Lemma append_nil (b : string) : "" +:+ b = b.
Proof. reflexivity. Qed.

Lemma append_assoc (a b c : string) : (a +:+ b) +:+ c = a +:+ (b +:+ c).
Proof.
  induction a as [|x a IH]; [reflexivity|].
  rewrite !append_cons, IH. reflexivity.
Qed.

Lemma append_empty (a b : string) : a +:+ b = "" -> a = "" /\ b = "".
Proof.
  destruct a as [|x a]; [rewrite append_nil; tauto|].
  rewrite append_cons. discriminate.
Qed.

Lemma toFixed1_integer (n : Z) :
  (Z.abs n < 10 ^ 21)%Z ->
  toFixed1 exponent_form (inject_Z n) =
    (if (n <? 0)%Z then "-" else "") +:+ pretty (Z.abs n) +:+ ".0".
Proof.
  intros Hsmall. unfold toFixed1.
  assert (Habs : Qabs (inject_Z n) = inject_Z (Z.abs n)) by reflexivity.
  assert (Hbelow : Qle_bool (inject_Z (10 ^ 21)) (Qabs (inject_Z n)) = false).
  { destruct (Qle_bool (inject_Z (10 ^ 21)) (Qabs (inject_Z n))) eqn:E; [|reflexivity].
    apply Qle_bool_iff in E. rewrite Habs, <- Zle_Qle in E. lia. }
  rewrite Hbelow.
  assert (Htenths : Qfloor (Qabs (inject_Z n) * 10 + (1 # 2)) = (10 * Z.abs n)%Z).
  { unfold Qfloor, Qabs, inject_Z, Qmult, Qplus. cbn [Qnum Qden].
    change (Z.pos (1 * 1 * 2)) with 2%Z. change (Z.pos (1 * 1)) with 1%Z.
    change (Z.pos 2) with 2%Z.
    symmetry. apply Z.div_unique with (r := 1%Z); lia. }
  rewrite Htenths.
  replace (10 * Z.abs n / 10)%Z with (Z.abs n)
    by (rewrite Z.mul_comm, Z.div_mul; lia).
  replace ((10 * Z.abs n) mod 10)%Z with 0%Z
    by (rewrite Z.mul_comm, Z.mod_mul; lia).
  destruct (Qlt_le_dec (inject_Z n) 0) as [Hneg|Hpos].
  - change 0 with (inject_Z 0) in Hneg. rewrite <- Zlt_Qlt in Hneg.
    apply Z.ltb_lt in Hneg. rewrite Hneg. reflexivity.
  - change 0 with (inject_Z 0) in Hpos. rewrite <- Zle_Qle in Hpos.
    destruct (n <? 0)%Z eqn:E; [apply Z.ltb_lt in E; lia|]. reflexivity.
Qed.

(** X12. A whole-number delta of magnitude below 1e21, as a check-ins
    delta is, is shown with its sign and one decimal 0: "+5.0" for 5,
    "-40.0" for -40, always followed by the suffix; the delta 0 is
    shown as a single dash.  (From 1e21 on [toFixed] prints the
    exponent form instead.) *)
Theorem formatDelta_integer (n : Z) (suffix : string) :
  (Z.abs n < 10 ^ 21)%Z ->
  formatDelta exponent_form (inject_Z n) suffix =
    if (n =? 0)%Z then "-"
    else (if (0 <? n)%Z then "+" else "-") +:+ pretty (Z.abs n) +:+ ".0" +:+ suffix.
Proof.
  intros Hsmall. unfold formatDelta. rewrite (toFixed1_integer n Hsmall).
  destruct (Qeq_bool (inject_Z n) 0) eqn:E.
  - apply Qeq_bool_iff in E. unfold Qeq in E. cbn in E.
    assert (n = 0%Z) as -> by lia. reflexivity.
  - assert (Hn : n <> 0%Z).
    { intros ->. discriminate. }
    destruct (n =? 0)%Z eqn:E0; [apply Z.eqb_eq in E0; contradiction|].
    destruct (Qlt_le_dec 0 (inject_Z n)) as [Hpos|Hneg].
    + change 0 with (inject_Z 0) in Hpos. rewrite <- Zlt_Qlt in Hpos.
      destruct (0 <? n)%Z eqn:E1; [|apply Z.ltb_ge in E1; lia].
      destruct (n <? 0)%Z eqn:E2; [apply Z.ltb_lt in E2; lia|].
      rewrite ?append_nil, ?append_cons, ?append_nil, !append_assoc. reflexivity.
    + change 0 with (inject_Z 0) in Hneg. rewrite <- Zle_Qle in Hneg.
      destruct (0 <? n)%Z eqn:E1; [apply Z.ltb_lt in E1; lia|].
      destruct (n <? 0)%Z eqn:E2; [|apply Z.ltb_ge in E2; lia].
      rewrite ?append_nil, ?append_cons, ?append_nil, !append_assoc. reflexivity.
Qed.

Lemma formatDelta_dash (d : Q) :
  formatDelta exponent_form d " min" = "-" -> d == 0.
Proof.
  unfold formatDelta. destruct (Qeq_bool d 0) eqn:E.
  - intros _. apply Qeq_bool_iff. exact E.
  - apply Qeq_bool_neq in E.
    destruct (Qlt_le_dec 0 d) as [Hpos|Hneg].
    + rewrite append_cons. discriminate.
    + unfold toFixed1. destruct (Qlt_le_dec d 0) as [Hlt|Hge].
      * rewrite append_nil, !append_cons, append_nil. intros [= H].
        apply append_empty in H as [_ H]. discriminate.
      * exfalso. apply E. lra.
Qed.

(** X13. Beside the average time a non-baseline row shows the delta
    span when its healing-time delta is present and not 0, the bare
    digit 0 when the delta is 0 (the [&&] chain stops at the number),
    and nothing when the delta is null; a baseline row shows nothing.
    The text of the span is never the dash and its icon never the
    neutral one: the arrow points up (an improvement) exactly when the
    machine heals faster than the baseline.  Beside the check-ins every
    non-baseline row shows a delta, with the neutral icon and the dash
    when it is 0. *)
Theorem healing_time_cell_shown (e : CompareMachine) :
  (healing_time_cell exponent_form e = Blank <->
     is_baseline e <> 0%Z \/ healing_time_delta e = None) /\
  (healing_time_cell exponent_form e = Number0 <->
     is_baseline e = 0%Z /\ exists d, healing_time_delta e = Some d /\ d == 0) /\
  (forall icon text,
     healing_time_cell exponent_form e = DeltaSpan icon text ->
     exists d, healing_time_delta e = Some d /\
       text = formatDelta exponent_form d " min" /\ text <> "-" /\
       icon <> Minus /\ (icon = TrendingUp <-> d < 0) /\
       (icon = TrendingDown <-> 0 < d)) /\
  (checkins_cell exponent_form e = None <-> is_baseline e <> 0%Z) /\
  (is_baseline e = 0%Z -> checkins_delta e = 0%Z ->
     checkins_cell exponent_form e = Some (Minus, "-")).
Proof.
  unfold healing_time_cell, checkins_cell.
  destruct (is_baseline e =? 0)%Z eqn:Hb.
  - apply Z.eqb_eq in Hb. split; [|split; [|split; [|split]]].
    + destruct (healing_time_delta e) as [d|].
      * destruct (Qeq_bool d 0); (split; [discriminate|]);
          intros [H|H]; [contradiction|discriminate|contradiction|discriminate].
      * split; [tauto|reflexivity].
    + destruct (healing_time_delta e) as [d|].
      * destruct (Qeq_bool d 0) eqn:E.
        -- apply Qeq_bool_iff in E. split; [|reflexivity]. intros _.
           split; [exact Hb|]. eauto.
        -- apply Qeq_bool_neq in E. split; [discriminate|].
           intros [_ [d' [[= <-] H]]]. contradiction.
      * split; [discriminate|]. intros [_ [d' [H _]]]. discriminate.
    + intros icon text. destruct (healing_time_delta e) as [d|]; [|discriminate].
      destruct (Qeq_bool d 0) eqn:E; [discriminate|]. apply Qeq_bool_neq in E.
      intros [= <- <-]. exists d. split; [reflexivity|]. split; [reflexivity|].
      split; [intros H; apply E; exact (formatDelta_dash d H)|].
      unfold getDeltaIcon.
      destruct (Qlt_le_dec 0 (- d)) as [H1|H1].
      * split; [discriminate|]. split; [split; [intros _; lra|reflexivity]|].
        split; [discriminate|intros H; lra].
      * destruct (Qlt_le_dec (- d) 0) as [H2|H2].
        -- split; [discriminate|]. split; [split; [discriminate|intros H; lra]|].
           split; [intros _; lra|reflexivity].
        -- exfalso. apply E. lra.
    + split; [discriminate|intros H; contradiction].
    + intros _ ->. reflexivity.
  - apply Z.eqb_neq in Hb. split; [|split; [|split; [|split]]].
    + split; [tauto|reflexivity].
    + split; [discriminate|]. intros [H _]. contradiction.
    + intros icon text. discriminate.
    + split; [intros _; exact Hb|reflexivity].
    + intros H. contradiction.
Qed.

End DeltaFacts.

Lemma formatDelta_integer_witness :
  Machines.formatDelta (fun _ => "") (inject_Z 5) "" = "+5.0" /\
  Machines.formatDelta (fun _ => "") (inject_Z (-40)) "%" = "-40.0%".
Proof.
  split.
  - rewrite (formatDelta_integer (fun _ => "") 5 "" ltac:(vm_compute; reflexivity)).
    vm_compute. reflexivity.
  - rewrite (formatDelta_integer (fun _ => "") (-40) "%" ltac:(vm_compute; reflexivity)).
    vm_compute. reflexivity.
Defined.

Section DialogFacts.
Import Js ActiveCheckins.
Context {R : Type}.
Variable fetchApi : Request -> Completion R.

(** X17. Opening the dismiss dialog starts from "success" every time:
    whatever outcome was chosen before, and whatever check-in was
    selected before, opening the dialog on a check-in and confirming
    sends the one request for that check-in with outcome success, and
    changes nothing of the list. *)
Theorem open_then_confirm (c : ActiveCheckin) (s : State) :
  sent (snd (click_dismiss fetchApi (openDismissDialog c s))) =
    [dismiss_request c success] /\
  checkins (openDismissDialog c s) = checkins s /\
  error (openDismissDialog c s) = error s /\
  dismissDialogOpen (openDismissDialog c s) = true.
Proof.
  split; [|repeat split; reflexivity].
  rewrite (click_dismiss_sent fetchApi (openDismissDialog c s) c) by reflexivity.
  reflexivity.
Qed.

End DialogFacts.
